(** * Smart Contract Auditor front end: editor widget and submission controller

    A shallow embedding of [src/App.js] (the [CodeEditor] component and the
    [App] component with its three handlers) and of the second variant of the
    same file whose results panel lists the issues one by one.

    JavaScript strings are sequences of UTF-16 code units.  The model keeps
    the code units below 256 (Rocq's [ascii]); on that range [trim],
    [toLowerCase], [split], [replace] and [substring] below follow
    ECMAScript. *)

From Stdlib Require Import Bool Arith List Lia NArith ZArith.
From Stdlib Require Import Ascii String DecimalString DecimalFacts DecimalNat.
Import ListNotations.

Local Open Scope list_scope.
Local Open Scope string_scope.
Local Set Warnings "-register-all".

(* ================================================================== *)
(** * JavaScript built-ins used by the source *)
(* ================================================================== *)

Module JS.

(** The line feed, ["\n"]. *)
Definition LF : ascii := "010"%char.

Fixpoint take (n : nat) (s : string) : string :=
  match n, s with
  | S n', String c s' => String c (take n' s')
  | _, _ => EmptyString
  end.

Fixpoint drop (n : nat) (s : string) : string :=
  match n, s with
  | S n', String _ s' => drop n' s'
  | _, _ => s
  end.

(** [s.substring(a, b)]: both indices are clamped to the length and
    swapped when out of order. *)
Definition substring (s : string) (a b : nat) : string :=
  let len := String.length s in
  let finalStart := Nat.min a len in
  let finalEnd := Nat.min b len in
  let from := Nat.min finalStart finalEnd in
  let to := Nat.max finalStart finalEnd in
  take (to - from) (drop from s).

(** [s.substring(a)]: the end defaults to the length. *)
Definition substring_from (s : string) (a : nat) : string :=
  substring s a (String.length s).

(** [s.split(sep)] for a separator of one code unit.  The result always
    has at least one element; the empty string splits into an array
    holding the empty string. *)
Fixpoint split (sep : ascii) (s : string) : list string :=
  match s with
  | EmptyString => [EmptyString]
  | String c s' =>
      if Ascii.eqb c sep then EmptyString :: split sep s'
      else match split sep s' with
           | seg :: rest => String c seg :: rest
           | [] => [String c EmptyString]
           end
  end.

(** [arr.map((x, index) => f x index)] *)
Fixpoint map_index_from {A B} (f : A -> nat -> B) (i : nat) (l : list A)
  : list B :=
  match l with
  | [] => []
  | x :: t => f x i :: map_index_from f (S i) t
  end.

Definition map_index {A B} (f : A -> nat -> B) (l : list A) : list B :=
  map_index_from f 0 l.

(** ToString of a non-negative integer Number: its decimal numeral. *)
Definition number_to_string (n : nat) : string :=
  NilZero.string_of_uint (Nat.to_uint n).

(** [arr.join(sep)] on an array of strings. *)
Definition join (sep : string) (l : list string) : string :=
  String.concat sep l.

(** [arr.join(sep)] on an array of Numbers: each element goes through
    ToString first. *)
Definition join_numbers (sep : string) (l : list nat) : string :=
  join sep (map number_to_string l).

(** Truthiness of a string: every string but the empty one is truthy. *)
Definition truthy_string (s : string) : bool :=
  match s with EmptyString => false | String _ _ => true end.

(** [a || b] on strings. *)
Definition or_string (a b : string) : string :=
  if truthy_string a then a else b.

(** [s.replace(pat, rep)] with a string pattern: only the first
    occurrence is replaced.  (Neither replacement text of the source
    holds a [$], so no substitution pattern is involved.) *)
Fixpoint replace (pat rep s : string) : string :=
  if String.prefix pat s then rep ++ drop (String.length pat) s
  else match s with
       | EmptyString => EmptyString
       | String c s' => String c (replace pat rep s')
       end.

(** WhiteSpace and LineTerminator code units below 256: TAB, LF, VT, FF,
    CR, SP and NBSP. *)
Definition is_white_space (c : ascii) : bool :=
  let n := nat_of_ascii c in
  (((9 <=? n) && (n <=? 13)) || (n =? 32) || (n =? 160))%nat.

Fixpoint trimStart (s : string) : string :=
  match s with
  | EmptyString => EmptyString
  | String c s' => if is_white_space c then trimStart s' else s
  end.

Fixpoint trimEnd (s : string) : string :=
  match s with
  | EmptyString => EmptyString
  | String c s' =>
      match trimEnd s' with
      | EmptyString =>
          if is_white_space c then EmptyString else String c EmptyString
      | r => String c r
      end
  end.

(** [s.trim()] *)
Definition trim (s : string) : string := trimEnd (trimStart s).

(** Lower-casing of one code unit below 256: A-Z and the Latin-1 capitals
    (U+00C0-U+00DE but the multiplication sign U+00D7) move up by 32. *)
Definition lower_char (c : ascii) : ascii :=
  let n := nat_of_ascii c in
  if (((65 <=? n) && (n <=? 90))
      || ((192 <=? n) && (n <=? 222) && negb (n =? 215)))%nat
  then ascii_of_nat (n + 32) else c.

(** [s.toLowerCase()] on a string of code units below 256: there the
    Unicode lower-casing ECMAScript prescribes maps each code unit by
    itself (A-Z and the capital letters of Latin-1 go 32 up, the
    multiplication sign stays).  Its rules that look at the neighbours of
    a letter concern code units from 256 on (the capital sigma), which
    the strings of this development do not hold. *)
Fixpoint toLowerCase (s : string) : string :=
  match s with
  | EmptyString => EmptyString
  | String c s' => String (lower_char c) (toLowerCase s')
  end.

(** [arr.pop()]: the last element, [None] (undefined) on an empty array.
    The array left behind is not used by the source. *)
Fixpoint pop {A} (l : list A) : option A :=
  match l with
  | [] => None
  | [x] => Some x
  | _ :: t => pop t
  end.

(** The one-character string holding a double quote. *)
Definition DQUOTE : string := String (ascii_of_nat 34) EmptyString.

(** [arr.includes(x)] on an array of strings. *)
Definition includes (l : list string) (x : string) : bool :=
  existsb (String.eqb x) l.

End JS.

(* ================================================================== *)
(** * Data model *)
(* ================================================================== *)

(** A browser [File]: the handle the file picker hands out.  The source
    reads [name] and [size] and passes the object on by reference; the
    bytes stay with the browser, [file_blob] names them. *)
Record File := {
  file_name : string;
  file_size : N;
  file_type : string;
  file_blob : nat
}.

(** A JSON value, as [response.json()] yields it.  Numbers are kept to the
    integers. *)
Inductive Json :=
| JNull
| JBool (b : bool)
| JNumber (z : Z)
| JString (s : string)
| JArray (items : list Json)
| JObject (members : list (string * Json)).

(** A fetch [Response]; the source reads [ok] and hands the object to
    [json()] or [text()]. *)
Record Response := {
  ok : bool;
  status : N
}.

(** A thrown value.  The [catch] block of [handleAnalyzeContract] looks for
    [error.response.data.message]; an [Error] made by [new Error(msg)]
    has no [response]. *)
Record ErrorData := { data_message : option string }.
Record ErrorResponse := { response_data : option ErrorData }.
Record JsError := {
  error_message : string;
  error_response : option ErrorResponse
}.

Definition Error (message : string) : JsError :=
  {| error_message := message; error_response := None |}.

(** [new Blob(parts, { type })] *)
Record Blob := {
  blob_parts : list string;
  blob_type : string
}.

(** One entry of a [FormData]: [append(name, file)] keeps the [File] as it
    is, [append(name, blob, filename)] wraps the blob under that file
    name. *)
Inductive FormValue :=
| FormFile (f : File)
| FormBlob (b : Blob) (filename : string).

Definition FormData := list (string * FormValue).

Definition formData_append (fd : FormData) (name : string) (v : FormValue)
  : FormData :=
  (fd ++ [(name, v)])%list.

(** [fetch(url, { method, body })]; a bare [fetch(url)] is a GET without
    body. *)
Record Request := {
  url : string;
  method : string;
  body : option FormData
}.

Definition GET (u : string) : Request :=
  {| url := u; method := "GET"; body := None |}.

(** The closure handed to [setTimeout] by [handleKeyDown]; it captures
    [start]. *)
Inductive Callback :=
| caret_after (start : nat).

(** The state hooks of [App]. *)
Record AppState := {
  contractCode : string;
  githubUrl : string;
  analysisResults : Json;
  isAnalyzing : bool;
  selectedFile : option File
}.

(** The initial values of the five [useState] hooks: two empty strings,
    [null], [false] and [null]. *)
Definition initial_state : AppState :=
  {| contractCode := EmptyString;
     githubUrl := EmptyString;
     analysisResults := JNull;
     isAnalyzing := false;
     selectedFile := None |}.

(* ================================================================== *)
(** * Handlers as command trees *)
(* ================================================================== *)

(** Calls that complete at once. *)
Inductive Action :=
| showToast (message type : string)
| console_error (label : string) (error : JsError)
| setContractCode (v : string)
| setGithubUrl (v : string)
| setAnalysisResults (v : Json)
| setIsAnalyzing (v : bool)
| setSelectedFile (v : option File)
| preventDefault
| setTimeout (cb : Callback) (delay : nat).

(** Operations whose result arrives in a later turn of the event loop,
    indexed by what they resolve to. *)
Inductive Op : Type -> Type :=
| Fetch (req : Request) : Op Response
| ResponseJson (r : Response) : Op Json
| ResponseText (r : Response) : Op string
| ReadAsText (f : File) : Op string.

(** A handler body: it returns, throws, performs an action and goes on, or
    is suspended on an operation until that settles (rejected with an
    error or fulfilled with a value). *)
Inductive Proc (A : Type) : Type :=
| Ret (a : A)
| Throw (e : JsError)
| Do (a : Action) (k : Proc A)
| Await {X : Type} (op : Op X) (k : JsError + X -> Proc A).

Arguments Ret {A} a.
Arguments Throw {A} e.
Arguments Do {A} a k.
Arguments Await {A X} op k.

Fixpoint bind {A B} (p : Proc A) (f : A -> Proc B) : Proc B :=
  match p with
  | Ret a => f a
  | Throw e => Throw e
  | Do a k => Do a (bind k f)
  | Await op k => Await op (fun r => bind (k r) f)
  end.

(** [try { p } catch (error) { h error }] *)
Fixpoint try_catch {A} (p : Proc A) (h : JsError -> Proc A) : Proc A :=
  match p with
  | Ret a => Ret a
  | Throw e => h e
  | Do a k => Do a (try_catch k h)
  | Await op k => Await op (fun r => try_catch (k r) h)
  end.

(** [try { p } finally { f }] *)
Fixpoint try_finally {A} (p : Proc A) (f : Proc unit) : Proc A :=
  match p with
  | Ret a => bind f (fun _ => Ret a)
  | Throw e => bind f (fun _ => Throw e)
  | Do a k => Do a (try_finally k f)
  | Await op k => Await op (fun r => try_finally (k r) f)
  end.

Definition perform (a : Action) : Proc unit := Do a (Ret tt).

(** [await op]: a rejection is thrown at the await. *)
Definition await {X} (op : Op X) : Proc X :=
  Await op (fun r => match r with inl e => Throw e | inr x => Ret x end).

Declare Scope proc_scope.
Delimit Scope proc_scope with proc.
Bind Scope proc_scope with Proc.
Notation "x <- p ;; q" := (bind p (fun x => q))
  (at level 61, p at next level, right associativity) : proc_scope.
Notation "p ;; q" := (bind p (fun _ => q))
  (at level 61, right associativity) : proc_scope.
Local Open Scope proc_scope.

(* ================================================================== *)
(** * The [CodeEditor] component *)
(* ================================================================== *)

Module CodeEditor.

(** The text [updateLineNumbers] writes into the gutter:
    [value.split('\n').map((_, index) => index + 1).join('\n')]. *)
Definition lineNumbers (value : string) : string :=
  let lines := JS.split JS.LF value in
  JS.join_numbers (String JS.LF EmptyString)
    (JS.map_index (fun _ index => index + 1) lines).

(** The child of the gutter's [<pre>] in the JSX:
    [value.split('\n').map((_, index) => index + 1).join('\n') || '1']. *)
Definition gutter (value : string) : string :=
  JS.or_string (lineNumbers value) "1".

(** [handleKeyDown(e)], with [value] and [onChange] the props of the
    component and the fields of [e] it reads passed one by one. *)
Definition handleKeyDown (value : string) (onChange : string -> Action)
    (key : string) (selectionStart selectionEnd : nat) : Proc unit :=
  if key =? "Tab" then
    perform preventDefault ;;
    let start := selectionStart in
    let end_ := selectionEnd in
    let newValue :=
      JS.substring value 0 start ++ "  " ++ JS.substring_from value end_ in
    perform (onChange newValue) ;;
    perform (setTimeout (caret_after start) 0)
  else Ret tt.

End CodeEditor.

(* ================================================================== *)
(** * The [App] component *)
(* ================================================================== *)

Module App.

Definition ANALYZE_URL : string := "https://qubic-id1q.onrender.com/analyze".

(** [5 * 1024 * 1024] *)
Definition MAX_SIZE : N := 5 * 1024 * 1024.

Definition allowedTypes : list string := [".h"; ".cpp"].

(** Truthiness of [selectedFile]: [null] or a [File] object. *)
Definition truthy_file (f : option File) : bool :=
  match f with Some _ => true | None => false end.

(** The message shown by the first branch of the [catch] block:
    [`Error: ${error.response.data.message || 'Unprocessable data'}`]. *)
Definition response_error_text (d : ErrorData) : string :=
  "Error: " ++
  match data_message d with
  | Some m => JS.or_string m "Unprocessable data"
  | None => "Unprocessable data"
  end.

Definition handleAnalyzeContract (selectedFile : option File)
    (contractCode : string) : Proc unit :=
  if negb (truthy_file selectedFile)
     && negb (JS.truthy_string (JS.trim contractCode))
  then
    perform (showToast
      "Please select a file or enter contract code to analyze" "error")
  else
    perform (setIsAnalyzing true) ;;
    try_finally
      (try_catch
         (let formData :=
            match selectedFile with
            | Some file => formData_append [] "file" (FormFile file)
            | None =>
                let blob := {| blob_parts := [contractCode];
                               blob_type := "text/plain" |} in
                formData_append [] "file" (FormBlob blob "contract.cpp")
            end in
          response <- await (Fetch {| url := ANALYZE_URL;
                                      method := "POST";
                                      body := Some formData |}) ;;
          (if negb (ok response) then Throw (Error "Analysis failed")
           else Ret tt) ;;
          results <- await (ResponseJson response) ;;
          perform (setAnalysisResults results) ;;
          perform (showToast
            "Contract analysis completed successfully!" "success"))
         (fun error =>
            perform (console_error "Analysis error:" error) ;;
            match error_response error with
            | Some {| response_data := Some d |} =>
                perform (showToast (response_error_text d) "error")
            | _ =>
                perform (showToast
                  "Failed to analyze contract. Please try again." "error")
            end))
      (perform (setIsAnalyzing false)).

(** The URL [handleImportFromGithub] fetches. *)
Definition rawUrl (githubUrl : string) : string :=
  JS.replace "/blob/" "/"
    (JS.replace "github.com" "raw.githubusercontent.com" githubUrl).

Definition handleImportFromGithub (githubUrl : string) : Proc unit :=
  if negb (JS.truthy_string (JS.trim githubUrl)) then
    perform (showToast "Please enter a GitHub URL" "error")
  else
    try_catch
      (response <- await (Fetch (GET (rawUrl githubUrl))) ;;
       (if negb (ok response)
        then Throw (Error "Failed to fetch file from GitHub")
        else Ret tt) ;;
       code <- await (ResponseText response) ;;
       perform (setContractCode code) ;;
       perform (setSelectedFile None) ;;
       perform (showToast "Code imported from GitHub successfully!"
                  "success"))
      (fun error =>
         perform (console_error "Import error:" error) ;;
         perform (showToast
           "Failed to import from GitHub. Please check the URL." "error")).

(** ['.' + file.name.split('.').pop().toLowerCase()]; [pop] on an empty
    array would give [undefined], whose [toLowerCase] is a TypeError. *)
Definition fileExtension (name : string) : JsError + string :=
  match JS.pop (JS.split "."%char name) with
  | Some last => inr ("." ++ JS.toLowerCase last)
  | None => inl (Error "Cannot read properties of undefined")
  end.

(** [handleFileUpload(event)], with [files0] standing for
    [event.target.files[0]].  The two callbacks of the [FileReader] are
    the two ways [readAsText] settles. *)
Definition handleFileUpload (files0 : option File) : Proc unit :=
  match files0 with
  | None => perform (showToast "File not uploaded" "error")
  | Some file =>
      match fileExtension (file_name file) with
      | inl e => Throw e
      | inr ext =>
          if negb (JS.includes allowedTypes ext) then
            perform (showToast
              "Please select a valid contract file (.cpp, .h, .sol, .js, .ts, .py, .rs, .go, .txt)"
              "error")
          else if (MAX_SIZE <? file_size file)%N then
            perform (showToast "File size must be less than 5MB" "error")
          else
            perform (setSelectedFile (Some file)) ;;
            Await (ReadAsText file) (fun r =>
              match r with
              | inr content =>
                  perform (setContractCode content) ;;
                  perform (showToast
                    ("File " ++ JS.DQUOTE ++ file_name file ++ JS.DQUOTE
                     ++ " selected successfully!")
                    "success")
              | inl _ =>
                  perform (showToast
                    "Failed to read file. Please try again." "error")
              end)
      end
  end.

End App.

(* ================================================================== *)
(** * The results panel, in both variants of the component *)
(* ================================================================== *)

Module Results.

(** What the right-hand panel shows. *)
Inductive View :=
| Placeholder                     (* "Analysis results will appear here" *)
| JsonDump (j : Json)             (* <pre>{JSON.stringify(j, null, 2)}</pre> *)
| NoIssuesFound                   (* "No Issues Found" *)
| IssueList (header : string) (items : list Json)
| RenderError (e : JsError).      (* the render threw *)

(** Truthiness of a JSON value. *)
Definition truthy (j : Json) : bool :=
  match j with
  | JNull => false
  | JBool b => b
  | JNumber z => negb (z =? 0)%Z
  | JString s => JS.truthy_string s
  | JArray _ | JObject _ => true
  end.

(** Own member [key] of a parsed object; of duplicate keys the last one
    stays, as [JSON.parse] has it. *)
Fixpoint lookup_member (key : string) (ms : list (string * Json))
  : option Json :=
  match ms with
  | [] => None
  | (k, v) :: rest =>
      match lookup_member key rest with
      | Some v' => Some v'
      | None => if k =? key then Some v else None
      end
  end.

(** [j.issues] on a non-null value; [None] is [undefined]. *)
Definition issues_of (j : Json) : option Json :=
  match j with
  | JObject ms => lookup_member "issues" ms
  | _ => None
  end.

(** [j.length] on a non-null value. *)
Definition length_of (j : Json) : option Json :=
  match j with
  | JArray items => Some (JNumber (Z.of_nat (List.length items)))
  | JString s => Some (JNumber (Z.of_nat (String.length s)))
  | JObject ms => lookup_member "length" ms
  | _ => None
  end.

(** [issue.key] on an item of the list, for the keys [line], [type] and
    [message]: only an object has such a member. *)
Definition member_of (key : string) (issue : Json) : option Json :=
  match issue with
  | JObject ms => lookup_member key ms
  | _ => None
  end.

(** A value React accepts as a child: strings and numbers are shown,
    booleans and [null] are skipped, an array is gone through, and an
    object is refused with an error. *)
Fixpoint valid_child (j : Json) : bool :=
  match j with
  | JObject _ => false
  | JArray items =>
      (fix all (l : list Json) : bool :=
         match l with
         | [] => true
         | x :: rest => valid_child x && all rest
         end) items
  | _ => true
  end.

(** [{x}] for a member that may be absent: [undefined] is skipped. *)
Definition valid_optional_child (x : option Json) : bool :=
  match x with
  | Some j => valid_child j
  | None => true
  end.

(** The render of one item goes through: the item is not [null] (else
    [issue.line] throws), [issue.type] is a string (else
    [issue.type.replace] throws), and [issue.line] and [issue.message]
    are values React accepts as children. *)
Definition item_renders (issue : Json) : bool :=
  match issue with
  | JNull => false
  | _ =>
      match member_of "type" issue with
      | Some (JString _) =>
          valid_optional_child (member_of "line" issue)
          && valid_optional_child (member_of "message" issue)
      | _ => false
      end
  end.

(** The panel of [src/App.js]: the result as pretty-printed JSON, or the
    placeholder. *)
Definition panel_json (analysisResults : Json) : View :=
  if truthy analysisResults then JsonDump analysisResults
  else Placeholder.

Section IssuesVariant.

(** [ToNumber(v) > 0] for a string, an array or an object [v]: the
    engine's coercion, met only when [issues] is an object with a
    member [length] of such a kind. *)
Variable coerced_positive : Json -> bool.

(** [v > 0] *)
Definition gt_zero (v : option Json) : bool :=
  match v with
  | None => false
  | Some JNull => false
  | Some (JBool b) => b
  | Some (JNumber z) => (0 <? z)%Z
  | Some w => coerced_positive w
  end.

(** ["Analysis Results - " n " Issue" ("s" unless n is 1) " Found"] *)
Definition header (n : nat) : string :=
  "Analysis Results - " ++ JS.number_to_string n ++ " Issue"
  ++ (if negb (n =? 1)%nat then "s" else EmptyString) ++ " Found".

(** The panel of the second variant:
    [analysisResults ? (analysisResults.issues &&
       analysisResults.issues.length > 0 ? list : no-issues)
     : placeholder].
    Only an array has a [map], and the list is shown only when every item
    can be rendered; what the items then look like is not followed. *)
Definition panel_issues (analysisResults : Json) : View :=
  if truthy analysisResults then
    match issues_of analysisResults with
    | Some issues =>
        if truthy issues && gt_zero (length_of issues) then
          match issues with
          | JArray items =>
              if forallb item_renders items
              then IssueList (header (List.length items)) items
              else RenderError (Error "an issue cannot be rendered")
          | _ => RenderError
                   (Error "analysisResults.issues.map is not a function")
          end
        else NoIssuesFound
    | None => NoIssuesFound
    end
  else Placeholder.

End IssuesVariant.

End Results.

(* ================================================================== *)
(** * The page as a machine: hooks, DOM, event loop *)
(* ================================================================== *)

(** The [<textarea>] of the editor: its value as [t.value] reads it (the
    API value, line breaks normalised) and its selection, counted in that
    value. *)
Record Textarea := {
  ta_value : string;
  selectionStart : nat;
  selectionEnd : nat
}.

(** A handler suspended on an operation. *)
Inductive Task :=
| Suspended {X : Type} (op : Op X) (k : JsError + X -> Proc unit).

(** How an operation settles. *)
Inductive Answer :=
| FetchSettled (r : JsError + Response)
| JsonSettled (r : JsError + Json)
| TextSettled (r : JsError + string)
| ReadSettled (r : JsError + string).

Record World := {
  hooks : AppState;
  textarea : Textarea;
  focused : bool;               (* the textarea has the focus *)
  analyze_disabled : bool;      (* [disabled] of the Analyze button *)
  defaultPrevented : bool;      (* of the event being dispatched *)
  toasts : list (string * string);
  console : list (string * JsError);
  pending : list Task;
  timers : list Callback;
  unhandled : list JsError
}.

Definition initial_world : World :=
  {| hooks := initial_state;
     textarea := {| ta_value := EmptyString;
                    selectionStart := 0; selectionEnd := 0 |};
     focused := false;
     analyze_disabled := false;
     defaultPrevented := false;
     toasts := [];
     console := [];
     pending := [];
     timers := [];
     unhandled := [] |}.

Definition with_hooks (w : World) (s : AppState) : World :=
  {| hooks := s; textarea := textarea w; focused := focused w;
     analyze_disabled := analyze_disabled w;
     defaultPrevented := defaultPrevented w; toasts := toasts w;
     console := console w; pending := pending w; timers := timers w;
     unhandled := unhandled w |}.

Definition with_textarea (w : World) (t : Textarea) : World :=
  {| hooks := hooks w; textarea := t; focused := focused w;
     analyze_disabled := analyze_disabled w;
     defaultPrevented := defaultPrevented w; toasts := toasts w;
     console := console w; pending := pending w; timers := timers w;
     unhandled := unhandled w |}.

Definition with_focused (w : World) (b : bool) : World :=
  {| hooks := hooks w; textarea := textarea w; focused := b;
     analyze_disabled := analyze_disabled w;
     defaultPrevented := defaultPrevented w; toasts := toasts w;
     console := console w; pending := pending w; timers := timers w;
     unhandled := unhandled w |}.

Definition with_analyze_disabled (w : World) (b : bool) : World :=
  {| hooks := hooks w; textarea := textarea w; focused := focused w;
     analyze_disabled := b;
     defaultPrevented := defaultPrevented w; toasts := toasts w;
     console := console w; pending := pending w; timers := timers w;
     unhandled := unhandled w |}.

Definition with_defaultPrevented (w : World) (b : bool) : World :=
  {| hooks := hooks w; textarea := textarea w; focused := focused w;
     analyze_disabled := analyze_disabled w;
     defaultPrevented := b; toasts := toasts w;
     console := console w; pending := pending w; timers := timers w;
     unhandled := unhandled w |}.

Definition with_toasts (w : World) (l : list (string * string)) : World :=
  {| hooks := hooks w; textarea := textarea w; focused := focused w;
     analyze_disabled := analyze_disabled w;
     defaultPrevented := defaultPrevented w; toasts := l;
     console := console w; pending := pending w; timers := timers w;
     unhandled := unhandled w |}.

Definition with_console (w : World) (l : list (string * JsError)) : World :=
  {| hooks := hooks w; textarea := textarea w; focused := focused w;
     analyze_disabled := analyze_disabled w;
     defaultPrevented := defaultPrevented w; toasts := toasts w;
     console := l; pending := pending w; timers := timers w;
     unhandled := unhandled w |}.

Definition with_pending (w : World) (l : list Task) : World :=
  {| hooks := hooks w; textarea := textarea w; focused := focused w;
     analyze_disabled := analyze_disabled w;
     defaultPrevented := defaultPrevented w; toasts := toasts w;
     console := console w; pending := l; timers := timers w;
     unhandled := unhandled w |}.

Definition with_timers (w : World) (l : list Callback) : World :=
  {| hooks := hooks w; textarea := textarea w; focused := focused w;
     analyze_disabled := analyze_disabled w;
     defaultPrevented := defaultPrevented w; toasts := toasts w;
     console := console w; pending := pending w; timers := l;
     unhandled := unhandled w |}.

Definition with_unhandled (w : World) (l : list JsError) : World :=
  {| hooks := hooks w; textarea := textarea w; focused := focused w;
     analyze_disabled := analyze_disabled w;
     defaultPrevented := defaultPrevented w; toasts := toasts w;
     console := console w; pending := pending w; timers := timers w;
     unhandled := l |}.

(** ** The value of a textarea (HTML, "API value") *)

(** The carriage return. *)
Definition CR : ascii := "013"%char.

(** Newline normalisation: every CR LF pair and every other CR becomes a
    single LF. *)
Fixpoint normalize_newlines (s : string) : string :=
  match s with
  | EmptyString => EmptyString
  | String c s' =>
      if Ascii.eqb c CR then
        match s' with
        | String c' s'' =>
            if Ascii.eqb c' JS.LF then String JS.LF (normalize_newlines s'')
            else String JS.LF (normalize_newlines s')
        | EmptyString => String JS.LF EmptyString
        end
      else String c (normalize_newlines s')
  end.

(** [t.value = v]: the API value becomes [v] normalised, and the caret
    goes to its end when that changes the API value. *)
Definition set_value (t : Textarea) (v : string) : Textarea :=
  let api := normalize_newlines v in
  if ta_value t =? api then t
  else {| ta_value := api;
          selectionStart := String.length api;
          selectionEnd := String.length api |}.

(** ** The selection of a text control (HTML, "set the selection range") *)

Definition setSelectionRange (t : Textarea) (start end_ : nat) : Textarea :=
  let len := String.length (ta_value t) in
  let s := Nat.min start len in
  let e := Nat.min end_ len in
  if (e <=? s)%nat
  then {| ta_value := ta_value t; selectionStart := e; selectionEnd := e |}
  else {| ta_value := ta_value t; selectionStart := s; selectionEnd := e |}.

(** [t.selectionEnd = v] *)
Definition set_selectionEnd (t : Textarea) (v : nat) : Textarea :=
  setSelectionRange t (selectionStart t) v.

(** [t.selectionStart = v] *)
Definition set_selectionStart (t : Textarea) (v : nat) : Textarea :=
  let e := selectionEnd t in
  let e := if (e <? v)%nat then v else e in
  setSelectionRange t v e.

(** The body of the timer callback of [handleKeyDown]:
    [e.target.selectionStart = e.target.selectionEnd = start + 2]. *)
Definition run_callback (cb : Callback) (t : Textarea) : Textarea :=
  match cb with
  | caret_after start =>
      set_selectionStart (set_selectionEnd t (start + 2)) (start + 2)
  end.

(** ** Running a handler *)

Definition set_contractCode (s : AppState) (v : string) : AppState :=
  {| contractCode := v; githubUrl := githubUrl s;
     analysisResults := analysisResults s; isAnalyzing := isAnalyzing s;
     selectedFile := selectedFile s |}.

Definition set_githubUrl (s : AppState) (v : string) : AppState :=
  {| contractCode := contractCode s; githubUrl := v;
     analysisResults := analysisResults s; isAnalyzing := isAnalyzing s;
     selectedFile := selectedFile s |}.

Definition set_analysisResults (s : AppState) (v : Json) : AppState :=
  {| contractCode := contractCode s; githubUrl := githubUrl s;
     analysisResults := v; isAnalyzing := isAnalyzing s;
     selectedFile := selectedFile s |}.

Definition set_isAnalyzing (s : AppState) (v : bool) : AppState :=
  {| contractCode := contractCode s; githubUrl := githubUrl s;
     analysisResults := analysisResults s; isAnalyzing := v;
     selectedFile := selectedFile s |}.

Definition set_selectedFile (s : AppState) (v : option File) : AppState :=
  {| contractCode := contractCode s; githubUrl := githubUrl s;
     analysisResults := analysisResults s; isAnalyzing := isAnalyzing s;
     selectedFile := v |}.

(** One action on the world.  Toasts and console lines are kept as a log. *)
Definition act (a : Action) (w : World) : World :=
  match a with
  | showToast message type => with_toasts w (toasts w ++ [(message, type)])%list
  | console_error label e => with_console w (console w ++ [(label, e)])%list
  | setContractCode v => with_hooks w (set_contractCode (hooks w) v)
  | setGithubUrl v => with_hooks w (set_githubUrl (hooks w) v)
  | setAnalysisResults v => with_hooks w (set_analysisResults (hooks w) v)
  | setIsAnalyzing v => with_hooks w (set_isAnalyzing (hooks w) v)
  | setSelectedFile v => with_hooks w (set_selectedFile (hooks w) v)
  | preventDefault => with_defaultPrevented w true
  | setTimeout cb _ => with_timers w (timers w ++ [cb])%list
  end.

(** A handler runs until it ends or reaches its next [await]; there it is
    parked among the pending tasks. *)
Fixpoint run (p : Proc unit) (w : World) : World :=
  match p with
  | Ret _ => w
  | Throw e => with_unhandled w (unhandled w ++ [e])%list
  | Do a k => run k (act a w)
  | Await op k => with_pending w (pending w ++ [Suspended op k])%list
  end.

(** The render that follows the state updates of a turn: the controlled
    textarea is assigned the [value] prop when [t.value] differs from it,
    and the Analyze button gets [disabled={isAnalyzing}]. *)
Definition commit (w : World) : World :=
  let v := contractCode (hooks w) in
  let t := textarea w in
  let t' := if ta_value t =? v then t else set_value t v in
  with_analyze_disabled (with_textarea w t') (isAnalyzing (hooks w)).

Definition remove_nth {A} (i : nat) (l : list A) : list A :=
  (firstn i l ++ skipn (S i) l)%list.

(** The rest of a suspended handler, given an answer of the right kind. *)
Definition resume (t : Task) (a : Answer) : option (Proc unit) :=
  match t with
  | Suspended op k =>
      match op in Op X return (JsError + X -> Proc unit) -> option (Proc unit)
      with
      | Fetch _ => fun k =>
          match a with FetchSettled r => Some (k r) | _ => None end
      | ResponseJson _ => fun k =>
          match a with JsonSettled r => Some (k r) | _ => None end
      | ResponseText _ => fun k =>
          match a with TextSettled r => Some (k r) | _ => None end
      | ReadAsText _ => fun k =>
          match a with ReadSettled r => Some (k r) | _ => None end
      end k
  end.

(** ** Events *)

Inductive Event :=
| FocusTextarea
| CodeTyped (v : string) (caret : nat)  (* the browser edited the textarea *)
| CaretMoved (a b : nat)
| KeyDown (key : string)
| UrlTyped (v : string)
| FileChosen (files0 : option File)
| ClickImport
| ClickAnalyze
| Settle (i : nat) (a : Answer)         (* pending task [i] settles *)
| TimerFired (i : nat).                 (* timer [i] fires *)

(** One turn of the event loop.  An event that cannot happen (a key press
    without focus, a click on the disabled button, an index or an answer
    without task) leaves the world as it is. *)
Definition fire (ev : Event) (w : World) : World :=
  match ev with
  | FocusTextarea => with_focused w true
  | CodeTyped v caret =>
      if focused w then
        (* the edited text, as [t.value] reads it *)
        let v' := normalize_newlines v in
        let c := Nat.min caret (String.length v') in
        let w1 := with_textarea w {| ta_value := v'; selectionStart := c;
                                     selectionEnd := c |} in
        (* onChange={(e) => onChange(e.target.value)} *)
        commit (run (perform (setContractCode (ta_value (textarea w1)))) w1)
      else w
  | CaretMoved a b =>
      if focused w then with_textarea w (setSelectionRange (textarea w) a b)
      else w
  | KeyDown key =>
      if focused w then
        let w0 := with_defaultPrevented w false in
        let w1 := run (CodeEditor.handleKeyDown (contractCode (hooks w))
                         setContractCode key
                         (selectionStart (textarea w))
                         (selectionEnd (textarea w))) w0 in
        (* the default action of Tab moves the focus on *)
        let w2 := if (key =? "Tab") && negb (defaultPrevented w1)
                  then with_focused w1 false else w1 in
        commit w2
      else w
  | UrlTyped v => commit (run (perform (setGithubUrl v)) w)
  | FileChosen files0 => commit (run (App.handleFileUpload files0) w)
  | ClickImport =>
      commit (run (App.handleImportFromGithub (githubUrl (hooks w))) w)
  | ClickAnalyze =>
      if analyze_disabled w then w
      else commit (run (App.handleAnalyzeContract (selectedFile (hooks w))
                          (contractCode (hooks w))) w)
  | Settle i a =>
      match nth_error (pending w) i with
      | Some t =>
          match resume t a with
          | Some p => commit (run p (with_pending w (remove_nth i (pending w))))
          | None => w
          end
      | None => w
      end
  | TimerFired i =>
      match nth_error (timers w) i with
      | Some cb =>
          with_textarea (with_timers w (remove_nth i (timers w)))
            (run_callback cb (textarea w))
      | None => w
      end
  end.

Definition exec (evs : list Event) (w : World) : World :=
  fold_left (fun w ev => fire ev w) evs w.

(** A pending task that belongs to an analysis submission: the POST itself
    or the reading of its JSON body. *)
Definition is_submission_op {X : Type} (op : Op X) : bool :=
  match op with
  | Fetch req => method req =? "POST"
  | ResponseJson _ => true
  | _ => false
  end.

Definition is_submission (t : Task) : bool :=
  match t with
  | Suspended op _ => is_submission_op op
  end.

Definition outstanding_submissions (w : World) : nat :=
  List.length (filter is_submission (pending w)).

(** The requests of the pending fetches. *)
Definition request_of (t : Task) : option Request :=
  match t with
  | Suspended op _ =>
      match op with
      | Fetch req => Some req
      | _ => None
      end
  end.

Fixpoint pending_requests (l : list Task) : list Request :=
  match l with
  | [] => []
  | t :: rest =>
      match request_of t with
      | Some req => req :: pending_requests rest
      | None => pending_requests rest
      end
  end.

(* ================================================================== *)
(** * Vocabulary of the properties *)
(* ================================================================== *)

(** Number of occurrences of a code unit. *)
Fixpoint count_char (c : ascii) (s : string) : nat :=
  match s with
  | EmptyString => 0
  | String a s' => (if Ascii.eqb a c then 1 else 0) + count_char c s'
  end.

(** Every code unit of the string is white space: the string is blank. *)
Fixpoint blank (s : string) : bool :=
  match s with
  | EmptyString => true
  | String c s' => JS.is_white_space c && blank s'
  end.

(** The number a string of decimal digits stands for; none for the
    empty string and for a string with another character. *)
Definition decimal_value (s : string) : option nat :=
  option_map Nat.of_uint (NilZero.uint_of_string s).

(** The string has more than one character and begins with a zero. *)
Definition leading_zero (s : string) : bool :=
  match s with
  | String c (String _ _) => Ascii.eqb c "0"
  | _ => false
  end.

(** A text of [n] lines. *)
Definition lines_of_x (n : nat) : string :=
  String.concat (String JS.LF EmptyString) (repeat "x" n).

(** The numerals ["1"], ..., ["n"]. *)
Definition numerals (n : nat) : list string :=
  map JS.number_to_string (seq 1 n).


(** The textarea is in step with the hooks: its value is the contract
    text as the textarea reports a text (line breaks as line feeds), and
    its selection lies within that value, start before end. *)
Definition textarea_in_step (w : World) : Prop :=
  ta_value (textarea w) = normalize_newlines (contractCode (hooks w)) /\
  selectionStart (textarea w) <= selectionEnd (textarea w) /\
  selectionEnd (textarea w) <= String.length (ta_value (textarea w)).

(** A text with a Windows line break: [a], CR, LF, [b]. *)
Definition crlf_text : string := "a" ++ String CR (String JS.LF "b").

(** A file of an allowed kind, for the pages below. *)
Definition header_file : File :=
  {| file_name := "a.h"; file_size := 4;
     file_type := "text/x-c"; file_blob := 3 |}.

(** A focused editor after [crlf_text] was read from a file: the hook
    holds the four code units, the textarea shows three, caret at the
    end. *)
Definition editor_with_crlf : World :=
  exec [FileChosen (Some header_file);
        Settle 0 (ReadSettled (inr crlf_text));
        FocusTextarea]
    initial_world.

(** The file part the submission sends for a selected file [sf] and a
    text [code]. *)
Definition file_part (sf : option File) (code : string) : FormValue :=
  match sf with
  | Some file => FormFile file
  | None => FormBlob {| blob_parts := [code]; blob_type := "text/plain" |}
              "contract.cpp"
  end.

(** The request of a submission. *)
Definition analysis_request (sf : option File) (code : string) : Request :=
  {| url := App.ANALYZE_URL; method := "POST";
     body := Some [("file", file_part sf code)] |}.

(** The submission passes validation: a file is selected or the text is
    not blank. *)
Definition passes_validation (sf : option File) (code : string) : bool :=
  App.truthy_file sf || negb (blank code).

(** A file the picker may hand out. *)
Definition sample_file : File :=
  {| file_name := "Token.cpp"; file_size := 2048;
     file_type := "text/x-c"; file_blob := 7 |}.

(** A page where only blanks were typed. *)
Definition blank_page : World :=
  exec [FocusTextarea; CodeTyped "   " 3] initial_world.

(** The task a valid submission parks: the handler suspended on its POST.
    (It does not depend on the world the handler starts in.) *)
Definition submission_task (sf : option File) (code : string) : option Task :=
  nth_error
    (pending (run (App.handleAnalyzeContract sf code) initial_world)) 0.

(** [w'] is [w] after the failure of the submission parked at [i]: the
    task is gone, an error toast is added, the in-flight flag is down and
    no other hook moved; the stored result in particular is the one of
    [w]. *)
Definition submission_failed (i : nat) (w w' : World) : Prop :=
  hooks w' = set_isAnalyzing (hooks w) false /\
  analysisResults (hooks w') = analysisResults (hooks w) /\
  pending w' = remove_nth i (pending w) /\
  analyze_disabled w' = false /\
  exists msg, toasts w' = (toasts w ++ [(msg, "error")])%list.

(** The body [{"issues":[{"line":12,"type":"error","message":"reentrancy
    risk"}]}]. *)
Definition one_issue : Json :=
  JObject [("issues",
            JArray [JObject [("line", JNumber 12);
                             ("type", JString "error");
                             ("message", JString "reentrancy risk")]])].

(** A page with a published result and a second submission in flight. *)
Definition resubmitting_page : World :=
  exec [FocusTextarea; CodeTyped "int x;" 6; ClickAnalyze;
        Settle 0 (FetchSettled (inr {| ok := true; status := 200 |}));
        Settle 0 (JsonSettled (inr one_issue));
        ClickAnalyze]
    initial_world.

(** The task an import with a non-blank URL parks: the handler suspended
    on its GET. *)
Definition import_task (githubUrl : string) : option Task :=
  nth_error
    (pending (run (App.handleImportFromGithub githubUrl) initial_world)) 0.

(** [w'] is [w] after the failure of the import parked at [i]: the task is
    gone, the error toast is added, and no hook moved. *)
Definition import_failed (i : nat) (w w' : World) : Prop :=
  hooks w' = hooks w /\
  pending w' = remove_nth i (pending w) /\
  toasts w'
  = (toasts w ++
     [("Failed to import from GitHub. Please check the URL.", "error")])%list.

(** [w'] is [w] after the import parked at [i] brought [code]: the text is
    [code], no file is selected, the other hooks are as they were. *)
Definition import_succeeded (i : nat) (code : string) (w w' : World) : Prop :=
  contractCode (hooks w') = code /\
  selectedFile (hooks w') = None /\
  hooks w' = set_selectedFile (set_contractCode (hooks w) code) None /\
  pending w' = remove_nth i (pending w) /\
  toasts w'
  = (toasts w ++
     [("Code imported from GitHub successfully!", "success")])%list.

(** A page with a file selected and an import under way. *)
Definition importing_page : World :=
  exec [FileChosen (Some sample_file);
        Settle 0 (ReadSettled (inr "file text"));
        UrlTyped "https://github.com/qubic/core/blob/main/src/Token.cpp";
        ClickImport]
    initial_world.

(** [s] with its first occurrence of [pat] substituted by [rep]; [s]
    itself when [pat] does not occur.  The occurrence is located by the
    standard library's [String.index]. *)
Definition substitute_first (pat rep s : string) : string :=
  match String.index 0 pat s with
  | Some i => JS.take i s ++ rep ++ JS.drop (i + String.length pat) s
  | None => s
  end.

(** The part of a file name after its last dot; the whole name when it has
    no dot. *)
Fixpoint after_last_dot (s : string) : string :=
  match s with
  | EmptyString => EmptyString
  | String c s' =>
      if (0 <? count_char "." s')%nat then after_last_dot s'
      else if Ascii.eqb c "." then s' else s
  end.

(** The extension of the name, lower-cased and with its dot, is on the
    allow-list. *)
Definition extension_allowed (name : string) : bool :=
  JS.includes App.allowedTypes ("." ++ JS.toLowerCase (after_last_dot name)).

(** The extension of a file name as a reader of the name has it: the
    part after the last dot; a name without a dot has none. *)
Definition extension_of (name : string) : option string :=
  if (0 <? count_char "." name)%nat then Some (after_last_dot name)
  else None.

(** The file has an extension and, letter case apart, it is on the
    allow-list. *)
Definition has_allowed_extension (f : File) : bool :=
  match extension_of (file_name f) with
  | Some ext => JS.includes App.allowedTypes ("." ++ JS.toLowerCase ext)
  | None => false
  end.

(** A file to be turned down: its extension is outside the allow-list or
    its size is above [5 * 1024 * 1024] bytes. *)
Definition to_be_rejected (f : File) : bool :=
  negb (has_allowed_extension f) || (5 * 1024 * 1024 <? file_size f)%N.

(** A small file whose name is [cpp], without a dot. *)
Definition dotless_file : File :=
  {| file_name := "cpp"; file_size := 1024;
     file_type := EmptyString; file_blob := 2 |}.

(** The address of a file page of the hosting site: the host, the owner,
    the repository, the [blob] marker, and the branch and path. *)
Definition blob_page (owner repo rest : string) : string :=
  "https://github.com/" ++ owner ++ "/" ++ repo ++ "/blob/" ++ rest.

(** The raw-content address of that file: the host substituted and the
    marker removed. *)
Definition raw_page (owner repo rest : string) : string :=
  "https://raw.githubusercontent.com/" ++ owner ++ "/" ++ repo ++ "/" ++ rest.

(** [w'] is [w] after a selection was turned down: an error toast, and
    neither a hook nor a pending task more or less. *)
Definition selection_rejected (w w' : World) : Prop :=
  hooks w' = hooks w /\
  contractCode (hooks w') = contractCode (hooks w) /\
  selectedFile (hooks w') = selectedFile (hooks w) /\
  pending w' = pending w /\
  exists msg, toasts w' = (toasts w ++ [(msg, "error")])%list.

(** [w'] is [w] after [f] was accepted: it is the selected file, and its
    text is being read. *)
Definition selection_accepted (f : File) (w w' : World) : Prop :=
  selectedFile (hooks w') = Some f /\
  hooks w' = set_selectedFile (hooks w) (Some f) /\
  toasts w' = toasts w /\
  exists k, pending w' = (pending w ++ [Suspended (ReadAsText f) k])%list.

(** A file of a given name and size. *)
Definition file_of (name : string) (size : N) : File :=
  {| file_name := name; file_size := size;
     file_type := "text/x-c"; file_blob := 1 |}.

(** A result object whose [issues] member is absent or an empty array. *)
Definition without_issues (ms : list (string * Json)) : Prop :=
  Results.lookup_member "issues" ms = None \/
  Results.lookup_member "issues" ms = Some (JArray []).

(** The body [{"issues":[]}]. *)
Definition empty_issues : Json := JObject [("issues", JArray [])].

(** An action other than [setIsAnalyzing]. *)
Definition flag_free (a : Action) : bool :=
  match a with
  | setIsAnalyzing _ => false
  | _ => true
  end.

(** A handler body that neither touches the in-flight flag nor awaits a
    submission. *)
Inductive quiet : Proc unit -> Prop :=
| quiet_Ret u : quiet (Ret u)
| quiet_Throw e : quiet (Throw e)
| quiet_Do a k : flag_free a = true -> quiet k -> quiet (Do a k)
| quiet_Await X (op : Op X) k :
    is_submission_op op = false ->
    (forall r, quiet (k r)) ->
    quiet (Await op k).

(** The rest of a submission: it awaits the submission further, or ends
    with [setIsAnalyzing(false)]. *)
Inductive closing : Proc unit -> Prop :=
| closing_end : closing (Do (setIsAnalyzing false) (Ret tt))
| closing_Do a k : flag_free a = true -> closing k -> closing (Do a k)
| closing_Await X (op : Op X) k :
    is_submission_op op = true ->
    (forall r, closing (k r)) ->
    closing (Await op k).

(** A pending task goes on as the rest of a submission when it awaits one,
    and quietly otherwise, however it settles. *)
Definition task_ok (t : Task) : Prop :=
  match t with
  | Suspended op k =>
      forall r, if is_submission_op op then closing (k r) else quiet (k r)
  end.

(** What holds of the hooks and the pending tasks at any time. *)
Definition balanced (w : World) : Prop :=
  outstanding_submissions w = (if isAnalyzing (hooks w) then 1 else 0) /\
  Forall task_ok (pending w).

(** What holds between two turns of the event loop. *)
Definition Inv (w : World) : Prop :=
  analyze_disabled w = isAnalyzing (hooks w) /\ balanced w.

(* ================================================================== *)
(** * Vocabulary of the further properties *)
(* ================================================================== *)


(** A focused editor holding [int x;], caret at the end. *)
Definition editor_with_caret : World :=
  exec [FocusTextarea; CodeTyped "int x;" 6] initial_world.

(** The two checks of [handleFileUpload] on a file: its extension is on
    the allow-list and its size is at most [5 * 1024 * 1024]. *)
Definition valid_file (f : File) : bool :=
  match App.fileExtension (file_name f) with
  | inr ext => JS.includes App.allowedTypes ext
  | inl _ => false
  end
  && (file_size f <=? App.MAX_SIZE)%N.

(** An action that selects no file but a valid one, shows no toast but an
    error or a success, and does not publish a result. *)
Definition harmless (a : Action) : Prop :=
  match a with
  | setSelectedFile (Some f) => valid_file f = true
  | showToast _ type => type = "error" \/ type = "success"
  | setAnalysisResults _ => False
  | _ => True
  end.

(** The operation is the reading of a JSON body. *)
Definition awaits_json {X : Type} (op : Op X) : bool :=
  match op with
  | ResponseJson _ => true
  | _ => false
  end.

(** A handler body that never throws past its end, performs harmless
    actions only, and publishes a result only as the first thing after a
    JSON body arrived, that body. *)
Inductive tame : Proc unit -> Prop :=
| tame_Ret u : tame (Ret u)
| tame_Do a k : harmless a -> tame k -> tame (Do a k)
| tame_Await X (op : Op X) k :
    awaits_json op = false ->
    (forall r, tame (k r)) ->
    tame (Await op k)
| tame_Json resp k k' :
    (forall e, tame (k (inl e))) ->
    (forall j, k (inr j) = Do (setAnalysisResults j) (k' j)) ->
    (forall j, tame (k' j)) ->
    tame (Await (ResponseJson resp) k).

(** A pending task goes on tamely however it settles; one that reads a
    JSON body publishes that body first when it gets it. *)
Definition task_tame (t : Task) : Prop :=
  match t with
  | Suspended op k =>
      match op in Op X return (JsError + X -> Proc unit) -> Prop with
      | ResponseJson _ => fun k =>
          (forall e, tame (k (inl e))) /\
          exists k', (forall j, k (inr j) = Do (setAnalysisResults j) (k' j))
                     /\ forall j, tame (k' j)
      | Fetch _ => fun k => forall r, tame (k r)
      | ResponseText _ => fun k => forall r, tame (k r)
      | ReadAsText _ => fun k => forall r, tame (k r)
      end k
  end.

(** What holds of the page at any time. *)
Definition kept (w : World) : Prop :=
  unhandled w = [] /\
  match selectedFile (hooks w) with
  | Some f => valid_file f = true
  | None => True
  end /\
  Forall (fun t => snd t = "error" \/ snd t = "success") (toasts w) /\
  Forall task_tame (pending w).

(** [w'] is [w] after the submission parked at [i] got the JSON body [j]:
    the body is the stored result, the success toast is added, the
    in-flight flag is down and the button enabled again. *)
Definition submission_succeeded (i : nat) (j : Json) (w w' : World) : Prop :=
  hooks w' = set_isAnalyzing (set_analysisResults (hooks w) j) false /\
  analysisResults (hooks w') = j /\
  pending w' = remove_nth i (pending w) /\
  analyze_disabled w' = false /\
  toasts w'
  = (toasts w ++
     [("Contract analysis completed successfully!", "success")])%list.

(** The toast shown when the text of [f] has been read. *)
Definition selected_toast (f : File) : string * string :=
  ("File " ++ JS.DQUOTE ++ file_name f ++ JS.DQUOTE
   ++ " selected successfully!", "success").

(** A response with a good status. *)
Definition ok_response : Response := {| ok := true; status := 200 |}.

(** The submission of a typed text, waiting for its response. *)
Definition submitting_page : World :=
  exec [FocusTextarea; CodeTyped "int x;" 6; ClickAnalyze] initial_world.

(** The task the selection of a valid file parks: the reading of its
    text, with the two callbacks of the [FileReader]. *)
Definition read_task (f : File) : option Task :=
  nth_error
    (pending (run (App.handleFileUpload (Some f)) initial_world)) 0.

(** A page where a file was chosen and, before its text was read, an
    import was started and ended well. *)
Definition imported_before_read : World :=
  exec [UrlTyped "https://github.com/qubic/core/blob/main/a.h";
        FileChosen (Some sample_file); ClickImport;
        Settle 1 (FetchSettled (inr ok_response));
        Settle 1 (TextSettled (inr "imported"))]
    initial_world.

(** [pat] occurs somewhere in [s]. *)
Fixpoint occurs (pat s : string) : bool :=
  String.prefix pat s
  || match s with
     | EmptyString => false
     | String _ s' => occurs pat s'
     end.

(** The [accept] attribute of the file input. *)
Definition picker_accept : string := ".sol,.cpp,.js,.ts,.py,.rs,.go,.txt,.h".

(** A page with a URL typed in. *)
Definition page_with_url : World :=
  exec [UrlTyped "https://github.com/qubic/core/blob/main/a.h"] initial_world.

(* ================================================================== *)
(** * Strings *)
(* ================================================================== *)

Section StringFacts.

Lemma append_empty_r (s : string) : s ++ EmptyString = s.
Proof. induction s as [|c s IH]; simpl; [reflexivity | now rewrite IH]. Qed.

Lemma append_assoc (a b c : string) : (a ++ b) ++ c = a ++ b ++ c.
Proof. induction a as [|x a IH]; simpl; [reflexivity | now rewrite IH]. Qed.

Lemma length_append (a b : string) :
  String.length (a ++ b) = String.length a + String.length b.
Proof. induction a as [|x a IH]; simpl; [reflexivity | now rewrite IH]. Qed.


Lemma take_append (a b : string) : JS.take (String.length a) (a ++ b) = a.
Proof. induction a as [|x a IH]; simpl; [now destruct b | now rewrite IH]. Qed.

Lemma drop_append (a b : string) : JS.drop (String.length a) (a ++ b) = b.
Proof. induction a as [|x a IH]; simpl; [now destruct b | exact IH]. Qed.






End StringFacts.

(* ================================================================== *)
(** * Newline normalisation *)
(* ================================================================== *)

Section Newlines.

(** Induction on a string two characters at a time. *)
Lemma string_ind2 (P : string -> Prop) :
  P EmptyString ->
  (forall c, P (String c EmptyString)) ->
  (forall c c' s, P s -> P (String c' s) -> P (String c (String c' s))) ->
  forall s, P s.
Proof.
  intros H0 H1 H2 s.
  assert (H : P s /\ forall c, P (String c s)).
  { induction s as [|c' s (IH1 & IH2)]; split; auto. }
  exact (proj1 H).
Qed.

Lemma normalize_cons2 (c c' : ascii) (s : string) :
  normalize_newlines (String c (String c' s))
  = if Ascii.eqb c CR then
      if Ascii.eqb c' JS.LF then String JS.LF (normalize_newlines s)
      else String JS.LF (normalize_newlines (String c' s))
    else String c (normalize_newlines (String c' s)).
Proof. reflexivity. Qed.

Lemma normalize_cons_other (c : ascii) (s : string) :
  Ascii.eqb c CR = false ->
  normalize_newlines (String c s) = String c (normalize_newlines s).
Proof. intros H. cbn [normalize_newlines]. now rewrite H. Qed.

Lemma normalize_length_le (s : string) :
  String.length (normalize_newlines s) <= String.length s.
Proof.
  induction s as [|c|c c' s IH1 IH2] using string_ind2.
  - reflexivity.
  - cbn. destruct (Ascii.eqb c CR); cbn; lia.
  - rewrite normalize_cons2.
    destruct (Ascii.eqb c CR).
    + destruct (Ascii.eqb c' JS.LF); cbn [String.length] in *; lia.
    + cbn [String.length] in *. lia.
Qed.



(** A normalised text holds no carriage return, and a text without one
    is its own normalisation. *)
Lemma normalize_no_CR (s : string) :
  count_char CR (normalize_newlines s) = 0.
Proof.
  induction s as [|c|c c' s IH1 IH2] using string_ind2.
  - reflexivity.
  - cbn [normalize_newlines].
    destruct (Ascii.eqb c CR) eqn:Hc; cbn; [reflexivity | now rewrite Hc].
  - rewrite normalize_cons2.
    destruct (Ascii.eqb c CR) eqn:Hc.
    + destruct (Ascii.eqb c' JS.LF); cbn [count_char]; [exact IH1 | exact IH2].
    + cbn [count_char]. now rewrite Hc.
Qed.

Lemma normalize_fixed (s : string) :
  count_char CR s = 0 -> normalize_newlines s = s.
Proof.
  induction s as [|c s IH]; [reflexivity|].
  cbn [count_char]. destruct (Ascii.eqb c CR) eqn:Hc; [discriminate|].
  intros H. rewrite normalize_cons_other by exact Hc. now rewrite IH.
Qed.

Lemma normalize_idempotent (s : string) :
  normalize_newlines (normalize_newlines s) = normalize_newlines s.
Proof. apply normalize_fixed, normalize_no_CR. Qed.




(** What a commit leaves in a textarea whose value was normalised. *)
Lemma commit_value (w : World) :
  normalize_newlines (ta_value (textarea w)) = ta_value (textarea w) ->
  ta_value (textarea (commit w)) = normalize_newlines (contractCode (hooks w)).
Proof.
  intros Hn. unfold commit, set_value.
  cbn [textarea with_analyze_disabled with_textarea].
  destruct (String.eqb_spec (ta_value (textarea w)) (contractCode (hooks w)))
    as [E|E].
  - now rewrite <- E, Hn.
  - destruct (String.eqb_spec (ta_value (textarea w))
                (normalize_newlines (contractCode (hooks w)))) as [E'|E'].
    + exact E'.
    + reflexivity.
Qed.

End Newlines.

(* ================================================================== *)
(** * The indent key *)
(* ================================================================== *)





(** The slices of the statement above are the parts of the buffer around
    the selection. *)
Lemma slices_of_selection (A B C : string) :
  JS.take (String.length A) (A ++ B ++ C) = A /\
  JS.drop (String.length A + String.length B) (A ++ B ++ C) = C.
Proof.
  split; [apply take_append|].
  rewrite <- length_append, <- append_assoc. apply drop_append.
Qed.


(** The key at the start, in the middle and at the end of [ab]. *)
Example indent_at_start_middle_end :
  map (fun p =>
         let w := exec [FocusTextarea; CodeTyped "ab" 2; CaretMoved p p;
                        KeyDown "Tab"; TimerFired 0] initial_world in
         (contractCode (hooks w), textarea w))
    [0; 1; 2]
  = [("  ab", {| ta_value := "  ab"; selectionStart := 2; selectionEnd := 2 |});
     ("a  b", {| ta_value := "a  b"; selectionStart := 3; selectionEnd := 3 |});
     ("ab  ", {| ta_value := "ab  "; selectionStart := 4; selectionEnd := 4 |})].
Proof. vm_compute. reflexivity. Qed.

(* ================================================================== *)
(** * The line-number gutter *)
(* ================================================================== *)

(** Two lines and a trailing line feed: three numerals. *)
Example gutter_of_two_lines :
  CodeEditor.gutter ("a" ++ String JS.LF ("b" ++ String JS.LF EmptyString))
  = "1" ++ String JS.LF ("2" ++ String JS.LF "3").
Proof. vm_compute. reflexivity. Qed.

Section Gutter.

Lemma split_not_nil (sep : ascii) (s : string) : JS.split sep s <> [].
Proof.
  destruct s as [|c s]; simpl; [discriminate|].
  destruct (Ascii.eqb c sep); [discriminate|].
  destruct (JS.split sep s); discriminate.
Qed.

(** A string splits into one more segment than it has separators. *)
Lemma length_split (sep : ascii) (s : string) :
  List.length (JS.split sep s) = S (count_char sep s).
Proof.
  induction s as [|c s IH]; simpl; [reflexivity|].
  destruct (Ascii.eqb c sep); simpl; [now rewrite IH|].
  pose proof (split_not_nil sep s) as Hn.
  destruct (JS.split sep s) as [|seg rest]; [contradiction|].
  exact IH.
Qed.

(** No segment holds the separator. *)
Lemma split_segments_clean (sep : ascii) (s : string) :
  Forall (fun seg => count_char sep seg = 0) (JS.split sep s).
Proof.
  induction s as [|c s IH]; simpl; [repeat constructor|].
  destruct (Ascii.eqb c sep) eqn:Hc; [constructor; [reflexivity | exact IH]|].
  destruct (JS.split sep s) as [|seg rest]; [repeat constructor; simpl|].
  - now rewrite Hc.
  - inversion IH as [|? ? H1 H2]; subst. constructor; [|exact H2].
    simpl. now rewrite Hc.
Qed.

Lemma concat_two (sep x y : string) (l : list string) :
  String.concat sep (x :: y :: l) = x ++ sep ++ String.concat sep (y :: l).
Proof. reflexivity. Qed.

(** Joining the segments with the separator gives the string back. *)
Lemma join_split (sep : ascii) (s : string) :
  JS.join (String sep EmptyString) (JS.split sep s) = s.
Proof.
  unfold JS.join. induction s as [|c s IH]; [reflexivity|].
  cbn [JS.split]. pose proof (split_not_nil sep s) as Hn.
  destruct (Ascii.eqb_spec c sep) as [->|Hne];
    destruct (JS.split sep s) as [|seg rest]; try contradiction.
  - rewrite concat_two, IH. reflexivity.
  - destruct rest as [|seg' rest].
    + cbn [String.concat] in *. now rewrite IH.
    + rewrite concat_two in *. rewrite <- IH. reflexivity.
Qed.

Lemma split_clean (sep : ascii) (x : string) :
  count_char sep x = 0 -> JS.split sep x = [x].
Proof.
  induction x as [|c x IH]; simpl; [reflexivity|].
  destruct (Ascii.eqb c sep); [discriminate|].
  intros H. now rewrite IH.
Qed.

Lemma split_append_sep (sep : ascii) (x rest : string) :
  count_char sep x = 0 ->
  JS.split sep (x ++ String sep rest) = x :: JS.split sep rest.
Proof.
  induction x as [|c x IH]; simpl.
  - intros _. now rewrite Ascii.eqb_refl.
  - destruct (Ascii.eqb c sep); [discriminate|].
    intros H. now rewrite IH.
Qed.

(** Splitting undoes joining, for elements free of the separator. *)
Lemma split_join (sep : ascii) (l : list string) :
  l <> [] ->
  Forall (fun x => count_char sep x = 0) l ->
  JS.split sep (JS.join (String sep EmptyString) l) = l.
Proof.
  unfold JS.join. induction l as [|x l IH]; [congruence|].
  intros _ Hall. inversion Hall as [|? ? Hx Hl]; subst.
  destruct l as [|y l].
  - cbn [String.concat]. now apply split_clean.
  - rewrite concat_two. cbn [append].
    rewrite split_append_sep by exact Hx.
    rewrite IH; [reflexivity | discriminate | exact Hl].
Qed.

Lemma map_index_succ {A} (l : list A) (i : nat) :
  JS.map_index_from (fun _ index => index + 1) i l
  = seq (i + 1) (List.length l).
Proof.
  revert i; induction l as [|x l IH]; intros i; simpl; [reflexivity|].
  f_equal. rewrite IH. reflexivity.
Qed.

Lemma string_of_uint_clean (d : Decimal.uint) :
  count_char JS.LF (NilEmpty.string_of_uint d) = 0.
Proof. induction d; simpl; assumption || reflexivity. Qed.

(** A decimal numeral holds no line feed and is not empty. *)
Lemma number_to_string_clean (n : nat) :
  count_char JS.LF (JS.number_to_string n) = 0.
Proof.
  unfold JS.number_to_string, NilZero.string_of_uint.
  destruct (Nat.to_uint n) eqn:E; try reflexivity;
    rewrite <- E; apply string_of_uint_clean.
Qed.

Lemma number_to_string_truthy (n : nat) :
  JS.truthy_string (JS.number_to_string n) = true.
Proof.
  unfold JS.number_to_string, NilZero.string_of_uint.
  destruct (Nat.to_uint n); reflexivity.
Qed.

Lemma numerals_clean (n : nat) :
  Forall (fun x => count_char JS.LF x = 0) (numerals n).
Proof.
  unfold numerals. apply Forall_forall. intros x Hx.
  apply in_map_iff in Hx. destruct Hx as (k & <- & _).
  apply number_to_string_clean.
Qed.

Lemma lineNumbers_numerals (V : string) :
  CodeEditor.lineNumbers V
  = JS.join (String JS.LF EmptyString)
      (numerals (List.length (JS.split JS.LF V))).
Proof.
  unfold CodeEditor.lineNumbers, JS.join_numbers, JS.map_index, numerals.
  now rewrite map_index_succ.
Qed.

Lemma join_numerals_truthy (n : nat) :
  JS.truthy_string
    (JS.join (String JS.LF EmptyString) (numerals (S n))) = true.
Proof.
  unfold numerals, JS.join. cbn [seq map String.concat].
  pose proof (number_to_string_truthy 1) as H1.
  destruct (map JS.number_to_string (seq 2 n)); [exact H1|].
  destruct (JS.number_to_string 1); [discriminate | reflexivity].
Qed.

(** The decimal numeral of [n] stands for [n] and has no leading zero;
    it is the only such string. *)
Lemma to_uint_normal (n : nat) : Decimal.unorm (Nat.to_uint n) = Nat.to_uint n.
Proof.
  rewrite <- (DecimalNat.Unsigned.of_to n) at 2.
  now rewrite DecimalNat.Unsigned.to_of.
Qed.

Lemma decimal_value_number_to_string (n : nat) :
  decimal_value (JS.number_to_string n) = Some n.
Proof.
  unfold decimal_value, JS.number_to_string.
  rewrite NilZero.usu.
  - cbn [option_map]. now rewrite DecimalNat.Unsigned.of_to.
  - rewrite <- to_uint_normal. apply DecimalFacts.unorm_nonnil.
Qed.

Lemma normal_D0 (u : Decimal.uint) :
  Decimal.unorm (Decimal.D0 u) = Decimal.D0 u -> u = Decimal.Nil.
Proof.
  intros H. destruct u as [|u|u|u|u|u|u|u|u|u|u]; [reflexivity| ..];
    rewrite DecimalFacts.unorm_D0 in H;
    match type of H with
    | Decimal.unorm ?d = _ =>
        assert (Hd : d <> Decimal.Nil) by discriminate;
        pose proof (DecimalFacts.nb_digits_unorm d Hd) as Hn;
        rewrite H in Hn; cbn [Decimal.nb_digits] in Hn; lia
    end.
Qed.

Lemma number_to_string_no_leading_zero (n : nat) :
  leading_zero (JS.number_to_string n) = false.
Proof.
  unfold JS.number_to_string. pose proof (to_uint_normal n) as H.
  destruct (Nat.to_uint n) as [|u|u|u|u|u|u|u|u|u|u];
    try reflexivity;
    try (cbn [NilZero.string_of_uint NilEmpty.string_of_uint leading_zero];
         now destruct (NilEmpty.string_of_uint u)).
  apply normal_D0 in H. subst u. reflexivity.
Qed.

Lemma numeral_unique (d : string) (n : nat) :
  decimal_value d = Some n -> leading_zero d = false ->
  d = JS.number_to_string n.
Proof.
  unfold decimal_value, JS.number_to_string. intros Hv Hz.
  destruct (NilZero.uint_of_string d) as [u|] eqn:Hu; [|discriminate].
  cbn [option_map] in Hv. injection Hv as <-.
  rewrite DecimalNat.Unsigned.to_of.
  pose proof (NilZero.sus d u Hu) as Hs.
  assert (Hnorm : Decimal.unorm u = u).
  { destruct u as [|u|u|u|u|u|u|u|u|u|u]; try reflexivity.
    - destruct d as [|c d]; [discriminate|].
      cbn [NilZero.uint_of_string NilEmpty.uint_of_string] in Hu.
      unfold uint_of_char in Hu.
      destruct (NilEmpty.uint_of_string d); [|discriminate].
      destruct c as [[] [] [] [] [] [] [] []]; discriminate.
    - assert (u = Decimal.Nil) as ->; [|reflexivity].
      subst d. cbn [NilZero.string_of_uint NilEmpty.string_of_uint
                    leading_zero] in Hz.
      destruct u; try reflexivity; cbn in Hz; discriminate. }
  now rewrite Hnorm.
Qed.

Lemma numerals_values (n : nat) :
  map decimal_value (numerals n) = map Some (seq 1 n).
Proof.
  unfold numerals. rewrite map_map. apply map_ext.
  apply decimal_value_number_to_string.
Qed.

Lemma numerals_no_leading_zero (n : nat) :
  existsb leading_zero (numerals n) = false.
Proof.
  unfold numerals. generalize 1. induction n as [|n IH]; intros k.
  - reflexivity.
  - cbn [seq map existsb].
    now rewrite number_to_string_no_leading_zero, IH.
Qed.

End Gutter.

(** C2.  For every text [V] with [N] newline-delimited segments (one more
    than it has line feeds; joining the segments by line feeds gives [V]
    back), the gutter has [N] lines, and they are the decimal numerals of
    [1], [2], ..., [N] in this order: line [k] stands for the number [k]
    and has no leading zero.  The effect [updateLineNumbers] writes the
    same text, and the gutter of the empty text is ["1"]. *)
Theorem gutter_shows_one_numeral_per_line :
  forall V : string,
    let N := List.length (JS.split JS.LF V) in
    let lines := JS.split JS.LF (CodeEditor.gutter V) in
    N = S (count_char JS.LF V) /\
    JS.join (String JS.LF EmptyString) (JS.split JS.LF V) = V /\
    List.length lines = N /\
    map decimal_value lines = map Some (seq 1 N) /\
    existsb leading_zero lines = false /\
    CodeEditor.lineNumbers V = CodeEditor.gutter V /\
    CodeEditor.gutter EmptyString = "1".
Proof.
  intros V N lines.
  assert (HN : N = S (count_char JS.LF V)) by apply length_split.
  assert (Hg : CodeEditor.gutter V = CodeEditor.lineNumbers V).
  { unfold CodeEditor.gutter, JS.or_string.
    rewrite lineNumbers_numerals. fold N. rewrite HN.
    now rewrite join_numerals_truthy. }
  assert (Hl : lines = numerals N).
  { unfold lines. rewrite Hg, lineNumbers_numerals. fold N.
    apply split_join; [|apply numerals_clean].
    rewrite HN. discriminate. }
  split; [exact HN|]. split; [apply join_split|].
  rewrite Hl. split; [unfold numerals; now rewrite length_map, length_seq|].
  split; [apply numerals_values|].
  split; [apply numerals_no_leading_zero|].
  split; [now rewrite Hg | reflexivity].
Qed.

(** The gutter of a text of twelve lines, written out. *)
Lemma gutter_shows_one_numeral_per_line_witness :
  map decimal_value (JS.split JS.LF (CodeEditor.gutter (lines_of_x 12)))
  = [Some 1; Some 2; Some 3; Some 4; Some 5; Some 6; Some 7; Some 8; Some 9;
     Some 10; Some 11; Some 12] /\
  CodeEditor.gutter (lines_of_x 12)
  = String.concat (String JS.LF EmptyString)
      ["1"; "2"; "3"; "4"; "5"; "6"; "7"; "8"; "9"; "10"; "11"; "12"].
Proof.
  split.
  - exact (proj1 (proj2 (proj2 (proj2
             (gutter_shows_one_numeral_per_line (lines_of_x 12)))))).
  - vm_compute. reflexivity.
Defined.

(* ================================================================== *)
(** * Blank texts *)
(* ================================================================== *)

Section Blank.

Lemma trimStart_blank (s : string) :
  blank s = true -> JS.trimStart s = EmptyString.
Proof.
  induction s as [|c s IH]; simpl; [reflexivity|].
  destruct (JS.is_white_space c); simpl; [exact IH | discriminate].
Qed.

Lemma trimStart_not_blank (s : string) :
  blank s = false ->
  exists c s', JS.trimStart s = String c s' /\ JS.is_white_space c = false.
Proof.
  induction s as [|c s IH]; simpl; [discriminate|].
  destruct (JS.is_white_space c) eqn:Hc; simpl; [exact IH|].
  intros _. now exists c, s.
Qed.

Lemma trimEnd_keeps_head (c : ascii) (s : string) :
  JS.is_white_space c = false ->
  JS.truthy_string (JS.trimEnd (String c s)) = true.
Proof.
  intros Hc. simpl. destruct (JS.trimEnd s); [now rewrite Hc | reflexivity].
Qed.

(** [!s.trim()] holds exactly for the blank strings. *)
Lemma trim_falsy_iff_blank (s : string) :
  negb (JS.truthy_string (JS.trim s)) = blank s.
Proof.
  unfold JS.trim. destruct (blank s) eqn:Hb.
  - now rewrite trimStart_blank.
  - destruct (trimStart_not_blank s Hb) as (c & s' & -> & Hc).
    now rewrite trimEnd_keeps_head.
Qed.

End Blank.

(* ================================================================== *)
(** * Submission: validation and payload *)
(* ================================================================== *)

Lemma pending_requests_app (l1 l2 : list Task) :
  pending_requests (l1 ++ l2)%list
  = (pending_requests l1 ++ pending_requests l2)%list.
Proof.
  induction l1 as [|t l1 IH]; simpl; [reflexivity|].
  destruct (request_of t); simpl; now rewrite IH.
Qed.

(** What the synchronous part of a valid submission does: the in-flight
    flag goes up and the handler is parked on the POST. *)
Lemma handleAnalyzeContract_valid (sf : option File) (code : string)
    (w : World) :
  passes_validation sf code = true ->
  exists k,
    run (App.handleAnalyzeContract sf code) w
    = with_pending (with_hooks w (set_isAnalyzing (hooks w) true))
        (pending w ++ [Suspended (Fetch (analysis_request sf code)) k])%list.
Proof.
  intros Hv. unfold App.handleAnalyzeContract.
  rewrite trim_falsy_iff_blank.
  destruct sf as [file|]; simpl in Hv.
  - cbn. eexists. reflexivity.
  - unfold passes_validation in Hv. simpl in Hv.
    apply negb_true_iff in Hv. rewrite Hv. cbn. eexists. reflexivity.
Qed.

(** C3.  A submission that passes validation sends one request, the POST
    to the analysis endpoint, whose body has exactly one part, named
    [file]: the selected file itself when there is one, whatever the text
    is, and otherwise the text as a [text/plain] blob under the file name
    [contract.cpp]. *)
Theorem payload_has_exactly_one_file_part :
  forall (sf : option File) (code : string) (w : World),
    passes_validation sf code = true ->
    let w' := run (App.handleAnalyzeContract sf code) w in
    pending_requests (pending w')
    = (pending_requests (pending w) ++
       [{| url := App.ANALYZE_URL; method := "POST";
           body := Some [("file",
             match sf with
             | Some file => FormFile file
             | None => FormBlob {| blob_parts := [code];
                                   blob_type := "text/plain" |}
                         "contract.cpp"
             end)] |}])%list /\
    hooks w' = set_isAnalyzing (hooks w) true.
Proof.
  intros sf code w Hv w'.
  destruct (handleAnalyzeContract_valid sf code w Hv) as (k & Hk).
  unfold w'. rewrite Hk. cbn [pending hooks with_pending with_hooks].
  rewrite pending_requests_app. split; reflexivity.
Qed.

Lemma payload_has_exactly_one_file_part_witness :
  pending_requests
    (pending (run (App.handleAnalyzeContract (Some sample_file) "edited")
                initial_world))
  = [{| url := App.ANALYZE_URL; method := "POST";
        body := Some [("file", FormFile sample_file)] |}].
Proof.
  exact (proj1 (payload_has_exactly_one_file_part (Some sample_file)
                  "edited" initial_world eq_refl)).
Defined.

(** C4.  With no file selected and a blank text, the handler behind
    Analyze only shows an error toast: the world after it is the world
    before it plus that toast, so no request is pending that was not, and
    the hooks (text, file, result, in-flight flag) are as they were.  The
    same holds for the click as a whole. *)
Theorem blank_submission_sends_nothing :
  forall (w : World),
    selectedFile (hooks w) = None ->
    blank (contractCode (hooks w)) = true ->
    let shown := (toasts w ++
      [("Please select a file or enter contract code to analyze",
        "error")])%list in
    run (App.handleAnalyzeContract (selectedFile (hooks w))
           (contractCode (hooks w))) w
    = with_toasts w shown /\
    (analyze_disabled w = false ->
     let w' := fire ClickAnalyze w in
     hooks w' = hooks w /\ pending w' = pending w /\
     pending_requests (pending w') = pending_requests (pending w) /\
     toasts w' = shown).
Proof.
  intros w Hf Hb shown.
  assert (Hrun : run (App.handleAnalyzeContract (selectedFile (hooks w))
                        (contractCode (hooks w))) w = with_toasts w shown).
  { unfold App.handleAnalyzeContract.
    rewrite trim_falsy_iff_blank, Hf, Hb. reflexivity. }
  split; [exact Hrun|].
  intros Hd w'. unfold w', fire. rewrite Hd, Hrun.
  repeat split; reflexivity.
Qed.

Lemma blank_submission_sends_nothing_witness :
  hooks (fire ClickAnalyze blank_page) = hooks blank_page /\
  pending (fire ClickAnalyze blank_page) = [] /\
  toasts (fire ClickAnalyze blank_page)
  = [("Please select a file or enter contract code to analyze", "error")].
Proof.
  destruct (blank_submission_sends_nothing blank_page eq_refl eq_refl)
    as (_ & H).
  destruct (H eq_refl) as (H1 & H2 & _ & H4).
  split; [exact H1|]. split; [exact H2 | exact H4].
Defined.

(* ================================================================== *)
(** * Submission: failure *)
(* ================================================================== *)

Lemma submission_task_run (sf : option File) (code : string) (t : Task) :
  submission_task sf code = Some t ->
  forall w,
    run (App.handleAnalyzeContract sf code) w
    = with_pending (with_hooks w (set_isAnalyzing (hooks w) true))
        (pending w ++ [t])%list.
Proof.
  unfold submission_task, App.handleAnalyzeContract.
  destruct (negb (App.truthy_file sf)
            && negb (JS.truthy_string (JS.trim code))).
  - discriminate.
  - cbn. intros [= <-] w. reflexivity.
Qed.

(** C10.  Whatever way a submission fails - the POST is rejected, the
    response is not [ok], or reading its JSON body is rejected - the stored
    result is the one from before (a last good result stays, [null]
    stays [null]); an error toast is shown and the in-flight flag is
    reset.  A response that is [ok] only moves the handler on to the body,
    with no hook touched. *)
Theorem failed_submission_keeps_result :
  forall (sf : option File) (code : string) (t : Task),
    submission_task sf code = Some t ->
    forall (w : World) (i : nat),
      nth_error (pending w) i = Some t ->
      (forall e,
          submission_failed i w (fire (Settle i (FetchSettled (inl e))) w)) /\
      (forall resp, ok resp = false ->
          submission_failed i w
            (fire (Settle i (FetchSettled (inr resp))) w)) /\
      (forall resp, ok resp = true ->
          exists t2,
            let w2 := fire (Settle i (FetchSettled (inr resp))) w in
            hooks w2 = hooks w /\ toasts w2 = toasts w /\
            pending w2 = (remove_nth i (pending w) ++ [t2])%list /\
            forall (w3 : World) (j : nat) e,
              nth_error (pending w3) j = Some t2 ->
              submission_failed j w3
                (fire (Settle j (JsonSettled (inl e))) w3)).
Proof.
  intros sf code t Ht w i Hi.
  unfold submission_task, App.handleAnalyzeContract in Ht.
  destruct (negb (App.truthy_file sf)
            && negb (JS.truthy_string (JS.trim code))); [discriminate|].
  cbn in Ht. injection Ht as <-.
  split; [|split].
  - intros e. unfold fire. rewrite Hi. cbn.
    destruct e as [m [[[d|]]|]]; cbn;
      repeat split; eexists; reflexivity.
  - intros resp Hok. unfold fire. rewrite Hi. cbn. rewrite Hok. cbn.
    repeat split; eexists; reflexivity.
  - intros resp Hok. eexists. cbv zeta. unfold fire. rewrite Hi. cbn.
    rewrite Hok. cbn.
    split; [reflexivity|]. split; [reflexivity|]. split; [reflexivity|].
    intros w3 j e Hj. rewrite Hj. cbn.
    destruct e as [m [[[d|]]|]]; cbn;
      repeat split; eexists; reflexivity.
Qed.

Lemma failed_submission_keeps_result_witness :
  analysisResults (hooks resubmitting_page) = one_issue /\
  submission_failed 0 resubmitting_page
    (fire (Settle 0 (FetchSettled (inl (Error "Failed to fetch"))))
       resubmitting_page) /\
  submission_failed 0 resubmitting_page
    (fire (Settle 0 (FetchSettled (inr {| ok := false; status := 500 |})))
       resubmitting_page).
Proof.
  split; [reflexivity|].
  destruct (failed_submission_keeps_result None "int x;" _ eq_refl
              resubmitting_page 0 eq_refl) as (H1 & H2 & _).
  split; [apply H1 | apply H2; reflexivity].
Defined.

(* ================================================================== *)
(** * GitHub import: outcomes *)
(* ================================================================== *)

(** C6.  An import whose fetch succeeds ([ok] response, body read)
    replaces the text by the fetched one and clears the selected file; an
    import that fails - the GET is rejected, the response is not [ok], or
    reading the body is rejected - shows an error and leaves every hook,
    the text and the selected file among them, as it was. *)
Theorem github_import_outcomes :
  forall (U : string) (t : Task),
    import_task U = Some t ->
    forall (w : World) (i : nat),
      nth_error (pending w) i = Some t ->
      (forall e,
          import_failed i w (fire (Settle i (FetchSettled (inl e))) w)) /\
      (forall resp, ok resp = false ->
          import_failed i w (fire (Settle i (FetchSettled (inr resp))) w)) /\
      (forall resp, ok resp = true ->
          exists t2,
            let w2 := fire (Settle i (FetchSettled (inr resp))) w in
            hooks w2 = hooks w /\ toasts w2 = toasts w /\
            pending w2 = (remove_nth i (pending w) ++ [t2])%list /\
            forall (w3 : World) (j : nat),
              nth_error (pending w3) j = Some t2 ->
              (forall e,
                  import_failed j w3
                    (fire (Settle j (TextSettled (inl e))) w3)) /\
              (forall code,
                  import_succeeded j code w3
                    (fire (Settle j (TextSettled (inr code))) w3))).
Proof.
  intros U t Ht w i Hi.
  unfold import_task, App.handleImportFromGithub in Ht.
  destruct (negb (JS.truthy_string (JS.trim U))); [discriminate|].
  cbn in Ht. injection Ht as <-.
  split; [|split].
  - intros e. unfold fire. rewrite Hi. cbn. repeat split.
  - intros resp Hok. unfold fire. rewrite Hi. cbn. rewrite Hok. cbn.
    repeat split.
  - intros resp Hok. eexists. cbv zeta. unfold fire. rewrite Hi. cbn.
    rewrite Hok. cbn.
    split; [reflexivity|]. split; [reflexivity|]. split; [reflexivity|].
    intros w3 j Hj. rewrite Hj. cbn. split; intros; repeat split.
Qed.

Lemma github_import_outcomes_witness :
  selectedFile (hooks importing_page) = Some sample_file /\
  import_failed 0 importing_page
    (fire (Settle 0 (FetchSettled (inl (Error "Failed to fetch"))))
       importing_page) /\
  import_succeeded 0 "imported text"
    (fire (Settle 0 (FetchSettled (inr {| ok := true; status := 200 |})))
       importing_page)
    (exec [Settle 0 (FetchSettled (inr {| ok := true; status := 200 |}));
           Settle 0 (TextSettled (inr "imported text"))]
       importing_page).
Proof.
  split; [reflexivity|].
  destruct (github_import_outcomes
              "https://github.com/qubic/core/blob/main/src/Token.cpp"
              _ eq_refl importing_page 0 eq_refl) as (H1 & _ & H3).
  split; [apply H1|].
  destruct (H3 {| ok := true; status := 200 |} eq_refl) as (t2 & _ & _ & Hp & H4).
  assert (Hn : nth_error
                 (pending (fire (Settle 0 (FetchSettled
                                   (inr {| ok := true; status := 200 |})))
                             importing_page)) 0 = Some t2).
  { rewrite Hp. reflexivity. }
  exact (proj2 (H4 _ 0 Hn) "imported text").
Defined.

(* ================================================================== *)
(** * GitHub import: the URL *)
(* ================================================================== *)

Lemma replace_substitute_first (pat rep s : string) :
  JS.replace pat rep s = substitute_first pat rep s.
Proof.
  unfold substitute_first. induction s as [|c s IH].
  - destruct pat; reflexivity.
  - cbn [JS.replace String.index].
    destruct (String.prefix pat (String c s)); [reflexivity|].
    rewrite IH. destruct (String.index 0 pat s); reflexivity.
Qed.

(** Where the pattern first occurs right after [pre], the substitution
    swaps it there. *)
Lemma substitute_first_at (pat rep pre post : string) :
  String.index 0 pat (pre ++ pat ++ post) = Some (String.length pre) ->
  substitute_first pat rep (pre ++ pat ++ post) = pre ++ rep ++ post.
Proof.
  intros H. unfold substitute_first. rewrite H.
  rewrite take_append. f_equal. f_equal.
  rewrite <- length_append, <- append_assoc. apply drop_append.
Qed.

(** C7, as stated, fails for the file page of an owner named [blob]:
    the first [/blob/] of the URL is the owner's segment, and it is that
    one the import takes out; the marker stays, and the URL fetched is not
    the raw-content address of the file. *)
Lemma first_blob_segment_is_taken_out :
  blob_page "blob" "tool" "main/a.h"
  = "https://github.com/blob/tool/blob/main/a.h" /\
  blank (blob_page "blob" "tool" "main/a.h") = false /\
  pending_requests
    (pending (run (App.handleImportFromGithub
                     (blob_page "blob" "tool" "main/a.h")) initial_world))
  = [GET "https://raw.githubusercontent.com/tool/blob/main/a.h"] /\
  raw_page "blob" "tool" "main/a.h"
  = "https://raw.githubusercontent.com/blob/tool/main/a.h" /\
  App.rawUrl (blob_page "blob" "tool" "main/a.h")
  <> raw_page "blob" "tool" "main/a.h".
Proof.
  split; [reflexivity|]. split; [reflexivity|]. split; [reflexivity|].
  split; [reflexivity|]. vm_compute. discriminate.
Qed.

(** C7, amended.  A blank URL is turned down with an error toast and
    nothing is fetched; for any other URL [U] the one request sent is a
    GET of [U] with its first ["github.com"] substituted by
    ["raw.githubusercontent.com"] and then its first ["/blob/"] by ["/"],
    wherever in [U] they stand (as [String.prototype.replace] with a
    string pattern does). *)
Theorem import_fetches_raw_url :
  forall (U : string) (w : World),
    let w' := run (App.handleImportFromGithub U) w in
    if blank U then
      hooks w' = hooks w /\ pending w' = pending w /\
      toasts w' = (toasts w ++ [("Please enter a GitHub URL", "error")])%list
    else
      pending_requests (pending w')
      = (pending_requests (pending w) ++
         [{| url := substitute_first "/blob/" "/"
                      (substitute_first "github.com"
                         "raw.githubusercontent.com" U);
             method := "GET"; body := None |}])%list /\
      hooks w' = hooks w /\ toasts w' = toasts w.
Proof.
  intros U w w'. unfold w', App.handleImportFromGithub.
  rewrite trim_falsy_iff_blank. destruct (blank U).
  - repeat split.
  - cbn. rewrite pending_requests_app. unfold App.rawUrl, GET.
    rewrite !replace_substitute_first. repeat split.
Qed.

Lemma import_fetches_raw_url_witness :
  pending_requests
    (pending (run (App.handleImportFromGithub
                     "https://github.com/qubic/core/blob/main/src/Token.cpp")
                initial_world))
  = [GET "https://raw.githubusercontent.com/qubic/core/main/src/Token.cpp"] /\
  pending (run (App.handleImportFromGithub "  ") initial_world) = [] /\
  toasts (run (App.handleImportFromGithub "  ") initial_world)
  = [("Please enter a GitHub URL", "error")].
Proof.
  pose proof (import_fetches_raw_url
                "https://github.com/qubic/core/blob/main/src/Token.cpp"
                initial_world) as H1.
  pose proof (import_fetches_raw_url "  " initial_world) as H2.
  cbv zeta in H1, H2.
  change (blank "https://github.com/qubic/core/blob/main/src/Token.cpp")
    with false in H1.
  change (blank "  ") with true in H2.
  cbv iota in H1, H2.
  destruct H1 as (H1 & _). destruct H2 as (_ & H2 & H3).
  split; [exact H1|]. split; [exact H2 | exact H3].
Defined.

Example rawUrl_of_blob_url :
  App.rawUrl "https://github.com/qubic/core/blob/main/src/Token.cpp"
  = "https://raw.githubusercontent.com/qubic/core/main/src/Token.cpp".
Proof. vm_compute. reflexivity. Qed.

(** A raw URL holds neither pattern and is fetched as it is. *)
Example rawUrl_of_raw_url :
  App.rawUrl "https://raw.githubusercontent.com/qubic/core/main/Token.cpp"
  = "https://raw.githubusercontent.com/qubic/core/main/Token.cpp".
Proof. vm_compute. reflexivity. Qed.

(* ================================================================== *)
(** * File selection *)
(* ================================================================== *)

Section FileName.

Lemma after_last_dot_dotless (s : string) :
  count_char "." s = 0 -> after_last_dot s = s.
Proof.
  induction s as [|c s IH]; simpl; [reflexivity|].
  destruct (Ascii.eqb c "."); [discriminate|]. simpl.
  intros H. now rewrite H.
Qed.

(** After a dot followed by no other dot comes the extension. *)
Lemma after_last_dot_ext (pre ext : string) :
  count_char "." ext = 0 ->
  after_last_dot (pre ++ String "." ext) = ext.
Proof.
  intros H. induction pre as [|c pre IH]; simpl.
  - now rewrite H.
  - assert (Hc : (0 <? count_char "." (pre ++ String "." ext))%nat = true).
    { clear. induction pre as [|d pre IH]; simpl.
      - reflexivity.
      - destruct (Ascii.eqb d "."); [reflexivity | exact IH]. }
    rewrite Hc. exact IH.
Qed.

Lemma pop_cons {A} (x : A) (l : list A) : l <> [] -> JS.pop (x :: l) = JS.pop l.
Proof. destruct l; [congruence | reflexivity]. Qed.

(** [name.split('.').pop()] is the part after the last dot. *)
Lemma pop_split_dot (s : string) :
  JS.pop (JS.split "." s) = Some (after_last_dot s).
Proof.
  induction s as [|c s IH]; [reflexivity|].
  cbn [JS.split after_last_dot].
  pose proof (split_not_nil "." s) as Hn.
  pose proof (length_split "." s) as Hl.
  destruct (Ascii.eqb c ".") eqn:Hc.
  - rewrite pop_cons, IH by exact Hn.
    destruct (count_char "." s) eqn:Hd; simpl.
    + now rewrite after_last_dot_dotless.
    + reflexivity.
  - destruct (JS.split "." s) as [|seg rest] eqn:Hs; [contradiction|].
    destruct (count_char "." s) eqn:Hd; simpl.
    + destruct rest; [|discriminate].
      rewrite (split_clean "." s Hd) in Hs. now injection Hs as ->.
    + destruct rest as [|seg' rest]; [discriminate|].
      rewrite <- IH. reflexivity.
Qed.

Lemma fileExtension_spec (name : string) :
  App.fileExtension name
  = inr ("." ++ JS.toLowerCase (after_last_dot name)).
Proof. unfold App.fileExtension. now rewrite pop_split_dot. Qed.

End FileName.

(** What [handleFileUpload] does with a chosen file. *)
Lemma handleFileUpload_cases (f : File) (w : World) :
  let w' := run (App.handleFileUpload (Some f)) w in
  if negb (extension_allowed (file_name f))
     || (5 * 1024 * 1024 <? file_size f)%N
  then selection_rejected w w'
  else selection_accepted f w w'.
Proof.
  intros w'. unfold w', App.handleFileUpload.
  rewrite fileExtension_spec. fold (extension_allowed (file_name f)).
  destruct (extension_allowed (file_name f)); cbn [negb orb].
  - change (5 * 1024 * 1024)%N with App.MAX_SIZE.
    destruct (App.MAX_SIZE <? file_size f)%N.
    + repeat split. eexists. reflexivity.
    + repeat split. eexists. reflexivity.
  - repeat split. eexists. reflexivity.
Qed.

(** C5.  The claim fails for a file whose name has no dot and reads
    [cpp]: the file has no extension and is to be turned down, but
    [name.split('.').pop()] gives the whole name, so the check compares
    [".cpp"] with the allow-list and lets the file through: it becomes
    the selected file and its text is read. *)
Theorem dotless_name_passes_the_extension_check :
  forall (w : World),
    extension_of (file_name dotless_file) = None /\
    to_be_rejected dotless_file = true /\
    App.fileExtension (file_name dotless_file) = inr ".cpp" /\
    selection_accepted dotless_file w
      (run (App.handleFileUpload (Some dotless_file)) w) /\
    selectedFile (hooks (fire (FileChosen (Some dotless_file)) w))
    = Some dotless_file.
Proof.
  intros w. split; [reflexivity|]. split; [reflexivity|].
  split; [reflexivity|]. split; [|reflexivity].
  exact (handleFileUpload_cases dotless_file w).
Qed.

(** For a name with a dot the check is the one on the extension. *)
Lemma dotted_name_is_checked_by_extension (f : File) :
  (0 < count_char "." (file_name f))%nat ->
  to_be_rejected f
  = negb (extension_allowed (file_name f))
    || (5 * 1024 * 1024 <? file_size f)%N.
Proof.
  intros H. apply Nat.ltb_lt in H.
  unfold to_be_rejected, has_allowed_extension, extension_of,
    extension_allowed.
  now rewrite H.
Qed.

(** What [handleFileUpload] decides on a chosen file.  It is turned down
    exactly when the last piece of its name between dots - the whole name
    when there is no dot - lower-cased and with a dot before it, is off
    the allow-list, or its size is above [5 * 1024 * 1024] bytes; a file
    turned down changes neither the text nor the selected file, and an
    accepted one becomes the selected file.  So [5 MiB + 1] bytes are
    turned down and [5 MiB] with an allowed ending are accepted. *)
Theorem file_selection_validation :
  forall (f : File) (w : World),
    let w' := run (App.handleFileUpload (Some f)) w in
    (if negb (extension_allowed (file_name f))
        || (5 * 1024 * 1024 <? file_size f)%N
     then selection_rejected w w'
     else selection_accepted f w w') /\
    (file_size f = (5 * 1024 * 1024 + 1)%N -> selection_rejected w w') /\
    (file_size f = (5 * 1024 * 1024)%N ->
     extension_allowed (file_name f) = true ->
     selection_accepted f w w').
Proof.
  intros f w w'. pose proof (handleFileUpload_cases f w) as H.
  fold w' in H. split; [exact H|]. split.
  - intros Hs. rewrite Hs in H.
    replace (5 * 1024 * 1024 <? 5 * 1024 * 1024 + 1)%N with true in H
      by reflexivity.
    now rewrite orb_true_r in H.
  - intros Hs He. rewrite Hs, He in H. exact H.
Qed.

Lemma file_selection_validation_witness :
  selection_rejected initial_world
    (run (App.handleFileUpload (Some (file_of "Big.cpp" 5242881)))
       initial_world) /\
  selection_accepted (file_of "Full.CPP" 5242880) initial_world
    (run (App.handleFileUpload (Some (file_of "Full.CPP" 5242880)))
       initial_world) /\
  selection_rejected initial_world
    (run (App.handleFileUpload (Some (file_of "Token.sol" 100)))
       initial_world) /\
  selection_rejected initial_world
    (run (App.handleFileUpload (Some (file_of "Token.cpp.txt" 100)))
       initial_world).
Proof.
  split; [|split; [|split]].
  - exact (proj1 (proj2 (file_selection_validation
                           (file_of "Big.cpp" 5242881) initial_world))
             eq_refl).
  - exact (proj2 (proj2 (file_selection_validation
                           (file_of "Full.CPP" 5242880) initial_world))
             eq_refl eq_refl).
  - exact (proj1 (file_selection_validation
                    (file_of "Token.sol" 100) initial_world)).
  - exact (proj1 (file_selection_validation
                    (file_of "Token.cpp.txt" 100) initial_world)).
Defined.

Example extension_allowed_examples :
  extension_allowed "Token.cpp" = true /\
  extension_allowed "qpi.H" = true /\
  extension_allowed "archive.tar.cpp" = true /\
  extension_allowed "Token.sol" = false /\
  extension_allowed "Token.cpp.txt" = false /\
  extension_allowed "Makefile" = false.
Proof. vm_compute. repeat split. Qed.

(** A name without dot is compared as a whole. *)
Example extension_of_dotless_name :
  App.fileExtension "cpp" = inr ".cpp" /\ extension_allowed "cpp" = true.
Proof. vm_compute. split; reflexivity. Qed.

(* ================================================================== *)
(** * The results panel *)
(* ================================================================== *)

(** C8, as stated, fails on [src/App.js]: for the result [{"issues":[]}]
    its panel shows the result as JSON, not a "no issues found" state. *)
Lemma json_panel_has_no_empty_state :
  Results.panel_json empty_issues = Results.JsonDump empty_issues /\
  Results.panel_json empty_issues <> Results.NoIssuesFound.
Proof. split; [reflexivity | discriminate]. Qed.

(** C8, amended.  For every result object whose [issues] array is absent
    or empty, the panel shows a state other than the placeholder of the
    page before any submission: the "No Issues Found" state in the variant
    of the component that lists the issues, and the result printed as JSON
    in [src/App.js]. *)
Theorem empty_result_is_not_the_placeholder :
  forall (coerced_positive : Json -> bool) (ms : list (string * Json)),
    without_issues ms ->
    Results.panel_issues coerced_positive (JObject ms)
    = Results.NoIssuesFound /\
    Results.panel_issues coerced_positive (analysisResults initial_state)
    = Results.Placeholder /\
    Results.NoIssuesFound <> Results.Placeholder /\
    Results.panel_json (JObject ms) = Results.JsonDump (JObject ms) /\
    Results.panel_json (analysisResults initial_state)
    = Results.Placeholder /\
    Results.JsonDump (JObject ms) <> Results.Placeholder.
Proof.
  intros cp ms H.
  split; [|repeat split; discriminate].
  unfold Results.panel_issues. cbn [Results.truthy Results.issues_of].
  destruct H as [-> | ->]; reflexivity.
Qed.

Lemma empty_result_is_not_the_placeholder_witness :
  Results.panel_issues (fun _ => false) empty_issues = Results.NoIssuesFound /\
  Results.panel_issues (fun _ => false) (JObject []) = Results.NoIssuesFound /\
  Results.panel_json empty_issues = Results.JsonDump empty_issues.
Proof.
  split; [|split].
  - exact (proj1 (empty_result_is_not_the_placeholder (fun _ => false)
                    [("issues", JArray [])] (or_intror eq_refl))).
  - exact (proj1 (empty_result_is_not_the_placeholder (fun _ => false)
                    [] (or_introl eq_refl))).
  - reflexivity.
Defined.

(** A result with issues is listed, in the variant that lists them. *)
Example one_issue_is_listed :
  Results.panel_issues (fun _ => false) one_issue
  = Results.IssueList "Analysis Results - 1 Issue Found"
      [JObject [("line", JNumber 12); ("type", JString "error");
                ("message", JString "reentrancy risk")]].
Proof. vm_compute. reflexivity. Qed.

(* ================================================================== *)
(** * One submission at a time *)
(* ================================================================== *)

Section OneAtATime.

Lemma act_flag_free (a : Action) (w : World) :
  flag_free a = true ->
  isAnalyzing (hooks (act a w)) = isAnalyzing (hooks w) /\
  pending (act a w) = pending w.
Proof. destruct a; simpl; intros H; try discriminate; split; reflexivity. Qed.

Lemma outstanding_snoc (w : World) (t : Task) :
  outstanding_submissions (with_pending w (pending w ++ [t])%list)
  = outstanding_submissions w + (if is_submission t then 1 else 0).
Proof.
  unfold outstanding_submissions. cbn [pending with_pending].
  rewrite filter_app, length_app. cbn [filter].
  destruct (is_submission t); reflexivity.
Qed.

Lemma Forall_snoc {A} (P : A -> Prop) (l : list A) (x : A) :
  Forall P l -> P x -> Forall P (l ++ [x])%list.
Proof. intros Hl Hx. apply Forall_app. split; [exact Hl | now constructor]. Qed.

(** A quiet body leaves flag and submissions as they are. *)
Lemma run_quiet (p : Proc unit) :
  quiet p ->
  forall w,
    isAnalyzing (hooks (run p w)) = isAnalyzing (hooks w) /\
    outstanding_submissions (run p w) = outstanding_submissions w /\
    (Forall task_ok (pending w) -> Forall task_ok (pending (run p w))).
Proof.
  induction 1 as [u | e | a k Ha Hk IH | X op k Hop Hk IH]; intros w.
  - repeat split; auto.
  - repeat split; auto.
  - cbn [run]. destruct (act_flag_free a w Ha) as (H1 & H2).
    destruct (IH (act a w)) as (I1 & I2 & I3).
    unfold outstanding_submissions in *. rewrite I1, I2, H1, H2.
    repeat split. intros Hf. apply I3. now rewrite H2.
  - cbn [run]. rewrite outstanding_snoc. cbn [is_submission].
    rewrite Hop, Nat.add_0_r. repeat split.
    intros Hf. cbn [pending with_pending]. apply Forall_snoc; [exact Hf|].
    cbn [task_ok]. rewrite Hop. exact Hk.
Qed.

(** The rest of a submission, once its task is taken off, keeps the
    balance. *)
Lemma run_closing (p : Proc unit) :
  closing p ->
  forall w,
    isAnalyzing (hooks w) = true ->
    outstanding_submissions w = 0 ->
    Forall task_ok (pending w) ->
    balanced (run p w).
Proof.
  induction 1 as [| a k Ha Hk IH | X op k Hop Hk IH]; intros w Hf Ho Ht.
  - split; [exact Ho | exact Ht].
  - cbn [run]. destruct (act_flag_free a w Ha) as (H1 & H2).
    apply IH.
    + now rewrite H1.
    + unfold outstanding_submissions in *. now rewrite H2.
    + now rewrite H2.
  - cbn [run]. split.
    + rewrite outstanding_snoc. cbn [is_submission hooks with_pending].
      now rewrite Hop, Hf, Ho.
    + cbn [pending with_pending]. apply Forall_snoc; [exact Ht|].
      cbn [task_ok]. rewrite Hop. exact Hk.
Qed.

Lemma balanced_quiet (p : Proc unit) (w : World) :
  quiet p -> balanced w -> balanced (run p w).
Proof.
  intros Hq (Hc & Ht). destruct (run_quiet p Hq w) as (H1 & H2 & H3).
  split; [now rewrite H1, H2 | now apply H3].
Qed.

Lemma Inv_commit (w : World) : balanced w -> Inv (commit w).
Proof. intros H. split; [reflexivity | exact H]. Qed.

Ltac quiet_step :=
  match goal with
  | |- quiet (Ret _) => apply quiet_Ret
  | |- quiet (Throw _) => apply quiet_Throw
  | |- quiet (perform _) => unfold perform
  | |- quiet (bind _ _) => cbn [bind]
  | |- quiet (Do _ _) => apply quiet_Do; [reflexivity|]
  | |- quiet (Await _ _) =>
      apply quiet_Await; [reflexivity | intros [?|?]; cbn]
  | |- quiet ?p =>
      match p with
      | context [if ?c then _ else _] => destruct c; cbn
      | context [match ?x with _ => _ end] => destruct x; cbn
      end
  end.

Ltac closing_step :=
  match goal with
  | |- closing (Do (setIsAnalyzing false) (Ret tt)) => apply closing_end
  | |- closing (Do _ _) => apply closing_Do; [reflexivity|]
  | |- closing (perform _) => unfold perform
  | |- closing (bind _ _) => cbn [bind]
  | |- closing (Await _ _) =>
      apply closing_Await; [reflexivity | intros [?|?]; cbn]
  | |- closing ?p =>
      match p with
      | context [if ?c then _ else _] => destruct c; cbn
      | context [match ?x with _ => _ end] => destruct x; cbn
      end
  end.

Lemma handleFileUpload_quiet (files0 : option File) :
  quiet (App.handleFileUpload files0).
Proof.
  unfold App.handleFileUpload. destruct files0 as [f|]; cbn.
  - rewrite fileExtension_spec. repeat quiet_step.
  - repeat quiet_step.
Qed.

Lemma handleImportFromGithub_quiet (U : string) :
  quiet (App.handleImportFromGithub U).
Proof.
  unfold App.handleImportFromGithub.
  destruct (negb (JS.truthy_string (JS.trim U))); cbn; repeat quiet_step.
Qed.

Lemma handleKeyDown_quiet (value key : string) (a b : nat) :
  quiet (CodeEditor.handleKeyDown value setContractCode key a b).
Proof.
  unfold CodeEditor.handleKeyDown.
  destruct (key =? "Tab"); cbn; repeat quiet_step.
Qed.

(** A submission either stops at validation, quietly, or raises the
    flag and goes on as the rest of a submission. *)
Lemma handleAnalyzeContract_shape (sf : option File) (code : string) :
  quiet (App.handleAnalyzeContract sf code) \/
  exists k, App.handleAnalyzeContract sf code = Do (setIsAnalyzing true) k
            /\ closing k.
Proof.
  unfold App.handleAnalyzeContract.
  destruct (negb (App.truthy_file sf)
            && negb (JS.truthy_string (JS.trim code))).
  - left. repeat quiet_step.
  - right. eexists. split; [cbn; reflexivity|].
    repeat closing_step.
Qed.

Lemma resume_ok (t : Task) (a : Answer) (p : Proc unit) :
  task_ok t -> resume t a = Some p ->
  if is_submission t then closing p else quiet p.
Proof.
  destruct t as [X op k]. cbn [task_ok is_submission]. intros Hk.
  destruct op; destruct a; cbn; intros [= <-]; apply Hk.
Qed.

Lemma filter_remove_nth {A} (f : A -> bool) (l : list A) :
  forall (i : nat) (t : A),
    nth_error l i = Some t ->
    List.length (filter f l)
    = List.length (filter f (remove_nth i l)) + (if f t then 1 else 0).
Proof.
  induction l as [|x l IH]; intros [|i] t H; try discriminate.
  - injection H as ->. unfold remove_nth. cbn [firstn skipn app filter].
    destruct (f t); cbn [List.length]; lia.
  - cbn [nth_error] in H. specialize (IH i t H).
    change (remove_nth (S i) (x :: l)) with (x :: remove_nth i l).
    cbn [filter]. destruct (f x); cbn [List.length]; lia.
Qed.

Lemma outstanding_remove (w : World) (i : nat) (t : Task) :
  nth_error (pending w) i = Some t ->
  outstanding_submissions w
  = outstanding_submissions (with_pending w (remove_nth i (pending w)))
    + (if is_submission t then 1 else 0).
Proof.
  unfold outstanding_submissions. cbn [pending with_pending].
  apply filter_remove_nth.
Qed.

Lemma Forall_remove_nth {A} (P : A -> Prop) (l : list A) :
  forall i, Forall P l -> Forall P (remove_nth i l).
Proof.
  induction l as [|x l IH]; intros [|i] H; try exact H.
  - now inversion H.
  - change (remove_nth (S i) (x :: l)) with (x :: remove_nth i l).
    inversion H as [|? ? Hx Hl]; subst. constructor; [exact Hx|].
    now apply IH.
Qed.

(** Every turn of the event loop keeps the invariant. *)
Lemma Inv_fire (ev : Event) (w : World) : Inv w -> Inv (fire ev w).
Proof.
  intros HI. pose proof HI as (Hb & Hbal). pose proof Hbal as (Hc & Ht).
  destruct ev as [| v caret | a b | key | v | files0 | | | i a | i];
    cbn [fire].
  - exact HI.
  - destruct (focused w); [|exact HI].
    apply Inv_commit. cbn [run perform]. exact Hbal.
  - destruct (focused w); exact HI.
  - destruct (focused w); [|exact HI].
    apply Inv_commit.
    set (h := CodeEditor.handleKeyDown _ _ _ _ _).
    set (w1 := run h (with_defaultPrevented w false)).
    assert (H1 : balanced w1).
    { apply balanced_quiet; [apply handleKeyDown_quiet | exact Hbal]. }
    destruct ((key =? "Tab") && negb (defaultPrevented w1)); exact H1.
  - apply Inv_commit. exact Hbal.
  - apply Inv_commit, balanced_quiet;
      [apply handleFileUpload_quiet | exact Hbal].
  - apply Inv_commit, balanced_quiet;
      [apply handleImportFromGithub_quiet | exact Hbal].
  - destruct (analyze_disabled w) eqn:Hd; [exact HI|].
    apply Inv_commit.
    destruct (handleAnalyzeContract_shape (selectedFile (hooks w))
                (contractCode (hooks w))) as [Hq | (k & -> & Hk)].
    + now apply balanced_quiet.
    + cbn [run]. apply run_closing; [exact Hk | reflexivity | | exact Ht].
      rewrite <- Hb in Hc. exact Hc.
  - destruct (nth_error (pending w) i) as [t|] eqn:Hi; [|exact HI].
    destruct (resume t a) as [p|] eqn:Hr; [|exact HI].
    apply Inv_commit.
    pose proof (outstanding_remove w i t Hi) as Ho.
    assert (Hok : task_ok t).
    { eapply Forall_forall; [exact Ht | eapply nth_error_In; exact Hi]. }
    pose proof (resume_ok t a p Hok Hr) as Hp.
    assert (Ht' : Forall task_ok
                    (pending (with_pending w (remove_nth i (pending w))))).
    { cbn [pending with_pending]. now apply Forall_remove_nth. }
    destruct (is_submission t).
    + apply run_closing; [exact Hp | | | exact Ht'].
      * cbn [hooks with_pending].
        destruct (isAnalyzing (hooks w)); [reflexivity | lia].
      * destruct (isAnalyzing (hooks w)); lia.
    + apply balanced_quiet; [exact Hp|]. split; [|exact Ht'].
      cbn [hooks with_pending]. lia.
  - destruct (nth_error (timers w) i); exact HI.
Qed.

Lemma Inv_exec (evs : list Event) (w : World) : Inv w -> Inv (exec evs w).
Proof.
  revert w. induction evs as [|ev evs IH]; intros w H; [exact H|].
  cbn [exec fold_left]. apply IH, Inv_fire, H.
Qed.

Lemma Inv_initial : Inv initial_world.
Proof. repeat split. constructor. Qed.

End OneAtATime.

(** C9.  In every world the page can reach, by whatever events in
    whatever order, at most one analysis submission is outstanding, and
    exactly one is precisely when the Analyze button is disabled, which it
    is exactly while the in-flight flag is set; a click on the disabled
    button changes nothing, so two clicks in a row leave at most one
    submission outstanding. *)
Theorem at_most_one_submission_outstanding :
  forall (evs : list Event),
    let w := exec evs initial_world in
    outstanding_submissions w <= 1 /\
    outstanding_submissions w = (if analyze_disabled w then 1 else 0) /\
    analyze_disabled w = isAnalyzing (hooks w) /\
    (if analyze_disabled w then fire ClickAnalyze w else w) = w /\
    outstanding_submissions (fire ClickAnalyze (fire ClickAnalyze w)) <= 1.
Proof.
  intros evs w.
  assert (Hle : forall w0, Inv w0 -> outstanding_submissions w0 <= 1).
  { intros w0 (_ & Hc & _). rewrite Hc.
    destruct (isAnalyzing (hooks w0)); lia. }
  pose proof (Inv_exec evs initial_world Inv_initial) as HI. fold w in HI.
  split; [now apply Hle|].
  destruct HI as (Hb & Hc & Ht).
  split; [now rewrite Hb|]. split; [exact Hb|]. split.
  - destruct (analyze_disabled w) eqn:Hd; [|reflexivity].
    cbn [fire]. now rewrite Hd.
  - apply Hle. do 2 apply Inv_fire. repeat split; assumption.
Qed.

(** Two clicks in a row on a page with a text: one request. *)
Example double_click_sends_one_request :
  let w := exec [FocusTextarea; CodeTyped "int x;" 6;
                 ClickAnalyze; ClickAnalyze] initial_world in
  outstanding_submissions w = 1 /\
  pending_requests (pending w) = [analysis_request None "int x;"] /\
  analyze_disabled w = true.
Proof. vm_compute. repeat split. Qed.

(* ================================================================== *)
(** * The editor: more on keys, lengths and lines *)
(* ================================================================== *)

Section Editor.

Lemma count_char_append (c : ascii) (a b : string) :
  count_char c (a ++ b) = count_char c a + count_char c b.
Proof.
  induction a as [|x a IH]; simpl; [reflexivity|]. rewrite IH. lia.
Qed.



(** No handler body moves the textarea. *)
Lemma run_textarea (p : Proc unit) :
  forall w, textarea (run p w) = textarea w /\ focused (run p w) = focused w.
Proof.
  induction p as [u | e | a k IH | X op k IH]; intros w; cbn [run].
  - split; reflexivity.
  - split; reflexivity.
  - destruct (IH (act a w)) as (H1 & H2). rewrite H1, H2.
    destruct a; split; reflexivity.
  - split; reflexivity.
Qed.

Lemma setSelectionRange_in_step (t : Textarea) (a b : nat) :
  ta_value (setSelectionRange t a b) = ta_value t /\
  selectionStart (setSelectionRange t a b)
  <= selectionEnd (setSelectionRange t a b) /\
  selectionEnd (setSelectionRange t a b) <= String.length (ta_value t).
Proof.
  unfold setSelectionRange.
  destruct (Nat.min b (String.length (ta_value t))
            <=? Nat.min a (String.length (ta_value t)))%nat eqn:Hc;
    cbn [ta_value selectionStart selectionEnd].
  - repeat split; lia.
  - apply Nat.leb_gt in Hc. repeat split; lia.
Qed.

Lemma commit_in_step (w : World) :
  normalize_newlines (ta_value (textarea w)) = ta_value (textarea w) ->
  selectionStart (textarea w) <= selectionEnd (textarea w) ->
  selectionEnd (textarea w) <= String.length (ta_value (textarea w)) ->
  textarea_in_step (commit w).
Proof.
  intros Hn H1 H2. unfold textarea_in_step.
  rewrite (commit_value w Hn). unfold commit, set_value.
  cbn [textarea hooks with_analyze_disabled with_textarea].
  destruct (ta_value (textarea w) =? contractCode (hooks w)) eqn:Heq.
  - apply String.eqb_eq in Heq. rewrite <- Heq, Hn.
    repeat split; assumption.
  - destruct (ta_value (textarea w)
              =? normalize_newlines (contractCode (hooks w))) eqn:Heq'.
    + apply String.eqb_eq in Heq'. rewrite <- Heq'.
      repeat split; assumption.
    + cbn [ta_value selectionStart selectionEnd]. repeat split; lia.
Qed.

Lemma in_step_normalized (w : World) :
  textarea_in_step w ->
  normalize_newlines (ta_value (textarea w)) = ta_value (textarea w).
Proof. intros (Hv & _). rewrite Hv. apply normalize_idempotent. Qed.

Lemma commit_run_in_step (p : Proc unit) (w : World) :
  normalize_newlines (ta_value (textarea w)) = ta_value (textarea w) ->
  selectionStart (textarea w) <= selectionEnd (textarea w) ->
  selectionEnd (textarea w) <= String.length (ta_value (textarea w)) ->
  textarea_in_step (commit (run p w)).
Proof.
  intros Hn H1 H2. apply commit_in_step;
    destruct (run_textarea p w) as (-> & _); assumption.
Qed.

Lemma fire_in_step (ev : Event) (w : World) :
  textarea_in_step w -> textarea_in_step (fire ev w).
Proof.
  intros HI. pose proof (in_step_normalized w HI) as Hn.
  pose proof HI as (Hv & Hs & He).
  destruct ev as [| v caret | a b | key | v | files0 | | | i a | i];
    cbn [fire].
  - exact HI.
  - destruct (focused w); [|exact HI].
    apply commit_run_in_step;
      cbn [textarea with_textarea selectionStart selectionEnd ta_value];
      [apply normalize_idempotent | lia | lia].
  - destruct (focused w); [|exact HI].
    destruct (setSelectionRange_in_step (textarea w) a b) as (H1 & H2 & H3).
    unfold textarea_in_step. cbn [textarea hooks with_textarea].
    rewrite H1. repeat split; assumption.
  - destruct (focused w); [|exact HI].
    set (h := CodeEditor.handleKeyDown _ _ _ _ _).
    set (w1 := run h (with_defaultPrevented w false)).
    assert (Ht : textarea w1 = textarea w).
    { unfold w1. now destruct (run_textarea h (with_defaultPrevented w false)). }
    apply commit_in_step;
      destruct ((key =? "Tab") && negb (defaultPrevented w1));
      cbn [textarea with_focused]; rewrite Ht; assumption.
  - now apply commit_run_in_step.
  - now apply commit_run_in_step.
  - now apply commit_run_in_step.
  - destruct (analyze_disabled w); [exact HI|]. now apply commit_run_in_step.
  - destruct (nth_error (pending w) i) as [t|]; [|exact HI].
    destruct (resume t a) as [p|]; [|exact HI].
    now apply commit_run_in_step.
  - destruct (nth_error (timers w) i) as [[start]|]; [|exact HI].
    unfold textarea_in_step. cbn [textarea hooks with_textarea with_timers].
    unfold run_callback, set_selectionStart, set_selectionEnd.
    set (t1 := setSelectionRange (textarea w) _ _).
    destruct (setSelectionRange_in_step (textarea w)
                (selectionStart (textarea w)) (start + 2)) as (H1 & _).
    fold t1 in H1.
    destruct (setSelectionRange_in_step t1 (start + 2)
                (if (selectionEnd t1 <? start + 2)%nat then start + 2
                 else selectionEnd t1)) as (G1 & G2 & G3).
    rewrite G1, H1. rewrite H1 in G3. repeat split; assumption.
Qed.

Lemma exec_in_step (evs : list Event) :
  forall w, textarea_in_step w -> textarea_in_step (exec evs w).
Proof.
  induction evs as [|ev l IH]; intros w H; [exact H|].
  cbn [exec fold_left]. apply IH, fire_in_step, H.
Qed.

Lemma initial_in_step : textarea_in_step initial_world.
Proof. repeat split; cbn; lia. Qed.

End Editor.

(** The editor never falls out of step: whatever happened on the page,
    the textarea holds the contract text as a textarea reports a text
    (each CR LF pair and each lone CR of the hook's text a line feed),
    and the selection the Tab handler reads lies within the textarea's
    value, hence within the contract text, start before end. *)
Theorem textarea_always_in_step :
  forall (evs : list Event),
    let w := exec evs initial_world in
    ta_value (textarea w) = normalize_newlines (contractCode (hooks w)) /\
    selectionStart (textarea w) <= selectionEnd (textarea w) /\
    selectionEnd (textarea w) <= String.length (ta_value (textarea w)) /\
    selectionEnd (textarea w) <= String.length (contractCode (hooks w)).
Proof.
  intros evs w.
  destruct (exec_in_step evs initial_world initial_in_step) as (H1 & H2 & H3).
  fold w in H1, H2, H3. repeat split; try assumption.
  pose proof (normalize_length_le (contractCode (hooks w))) as H.
  rewrite <- H1 in H. lia.
Qed.

(** After a file with Windows line breaks was read, the hook holds its
    four code units and the textarea three. *)
Example crlf_page_in_step :
  contractCode (hooks editor_with_crlf) = crlf_text /\
  textarea editor_with_crlf
  = {| ta_value := "a" ++ String JS.LF "b";
       selectionStart := 3; selectionEnd := 3 |}.
Proof. vm_compute. split; reflexivity. Qed.

Lemma setSelectionRange_within (t : Textarea) (a b : nat) :
  a <= b -> b <= String.length (ta_value t) ->
  setSelectionRange t a b
  = {| ta_value := ta_value t; selectionStart := a; selectionEnd := b |}.
Proof.
  intros Hab Hb. unfold setSelectionRange.
  rewrite (Nat.min_l a), (Nat.min_l b) by lia.
  destruct (b <=? a)%nat eqn:Hc; [|reflexivity].
  apply Nat.leb_le in Hc. now replace b with a by lia.
Qed.

(** Every text and every selection within it, as the textarea holds it,
    occur on the page: the text can be read from a file and the selection
    made in the focused textarea.  So the Tab handler meets every buffer
    [V] and every [s <= e] up to the length of [V] as the textarea
    shows it, which is the length of [V] when [V] holds no carriage
    return. *)
Theorem every_selection_is_reachable :
  forall (V : string) (s e : nat),
    s <= e -> e <= String.length (normalize_newlines V) ->
    let w := exec [FileChosen (Some header_file);
                   Settle 0 (ReadSettled (inr V));
                   FocusTextarea; CaretMoved s e] initial_world in
    focused w = true /\
    contractCode (hooks w) = V /\
    textarea w = {| ta_value := normalize_newlines V;
                    selectionStart := s; selectionEnd := e |} /\
    textarea_in_step w.
Proof.
  intros V s e Hse He w.
  set (w3 := exec [FileChosen (Some header_file);
                   Settle 0 (ReadSettled (inr V)); FocusTextarea]
               initial_world).
  assert (HI : textarea_in_step w3) by apply exec_in_step, initial_in_step.
  assert (Hc : contractCode (hooks w3) = V) by reflexivity.
  assert (Hf : focused w3 = true) by reflexivity.
  assert (Hw : w = with_textarea w3 (setSelectionRange (textarea w3) s e)).
  { change w with (fire (CaretMoved s e) w3). cbn [fire]. now rewrite Hf. }
  destruct HI as (Hv & _). rewrite Hc in Hv.
  clearbody w w3. subst w. unfold textarea_in_step.
  cbn [focused hooks textarea with_textarea].
  rewrite setSelectionRange_within by (try rewrite Hv; assumption).
  cbn [ta_value selectionStart selectionEnd].
  rewrite Hc, Hv. repeat split; assumption.
Qed.

Lemma every_selection_is_reachable_witness :
  textarea (exec [FileChosen (Some header_file);
                  Settle 0 (ReadSettled (inr crlf_text));
                  FocusTextarea; CaretMoved 1 2] initial_world)
  = {| ta_value := "a" ++ String JS.LF "b";
       selectionStart := 1; selectionEnd := 2 |}.
Proof.
  exact (proj1 (proj2 (proj2
           (every_selection_is_reachable crlf_text 1 2
              ltac:(lia) ltac:(vm_compute; lia))))).
Defined.

(** A key other than Tab is left to the browser: the handler prevents
    nothing, sets no timer, and changes neither the text nor any other
    hook; the key name is compared as it is, letter case included. *)
Theorem other_keys_pass_through :
  forall (w : World) (key : string),
    focused w = true ->
    key <> "Tab" ->
    let w' := fire (KeyDown key) w in
    hooks w' = hooks w /\ timers w' = timers w /\
    pending w' = pending w /\ toasts w' = toasts w /\
    focused w' = true /\ defaultPrevented w' = false.
Proof.
  intros w key Hf Hk w'. unfold w', fire. rewrite Hf.
  unfold CodeEditor.handleKeyDown.
  apply String.eqb_neq in Hk. rewrite Hk. cbn.
  repeat split. exact Hf.
Qed.

Lemma other_keys_pass_through_witness :
  hooks (fire (KeyDown "tab") editor_with_caret) = hooks editor_with_caret /\
  defaultPrevented (fire (KeyDown "Enter") editor_with_caret) = false.
Proof.
  split.
  - apply (other_keys_pass_through editor_with_caret "tab" eq_refl).
    discriminate.
  - apply (other_keys_pass_through editor_with_caret "Enter" eq_refl).
    discriminate.
Defined.






(** A textarea out of step, which the page never has, would not do: with
    two CR LF pairs in the hook and four other characters in the
    textarea, caret behind them, the second caret cannot go past the six
    characters the textarea then shows. *)
Example two_tabs_out_of_step :
  selectionStart
    (textarea
       (exec [KeyDown "Tab"; TimerFired 0; KeyDown "Tab"; TimerFired 0]
          (with_textarea
             (with_hooks (with_focused initial_world true)
                (set_contractCode initial_state
                   (String CR (String JS.LF (String CR (String JS.LF
                      EmptyString))))))
             {| ta_value := "wxyz"; selectionStart := 4;
                selectionEnd := 4 |})))
  = 6.
Proof. vm_compute. reflexivity. Qed.

Section GutterGrowth.

Lemma join_snoc (sep x : string) (l : list string) :
  l <> [] -> JS.join sep (l ++ [x])%list = JS.join sep l ++ sep ++ x.
Proof.
  unfold JS.join. induction l as [|y l IH]; [congruence|]. intros _.
  destruct l as [|z l].
  - reflexivity.
  - change ((y :: z :: l) ++ [x])%list with (y :: ((z :: l) ++ [x]))%list.
    change ((z :: l) ++ [x])%list with (z :: (l ++ [x]))%list.
    rewrite !concat_two.
    change (z :: (l ++ [x]))%list with ((z :: l) ++ [x])%list.
    rewrite IH by discriminate. now rewrite !append_assoc.
Qed.

Lemma gutter_by_line_feeds (V : string) :
  CodeEditor.gutter V
  = JS.join (String JS.LF EmptyString) (numerals (S (count_char JS.LF V))).
Proof.
  unfold CodeEditor.gutter, JS.or_string.
  rewrite lineNumbers_numerals, length_split.
  now rewrite join_numerals_truthy.
Qed.

End GutterGrowth.

(** A line feed put anywhere into the text leaves the numerals there are
    and adds one line below them: the decimal numeral, without leading
    zero, of the next number. *)
Theorem line_feed_adds_next_numeral :
  forall (A B : string),
    let N := List.length (JS.split JS.LF (A ++ B)) in
    exists d : string,
      CodeEditor.gutter (A ++ String JS.LF B)
      = CodeEditor.gutter (A ++ B) ++ String JS.LF d /\
      decimal_value d = Some (N + 1) /\
      leading_zero d = false.
Proof.
  intros A B N. exists (JS.number_to_string (N + 1)).
  split; [|split;
           [apply decimal_value_number_to_string
           |apply number_to_string_no_leading_zero]].
  rewrite !gutter_by_line_feeds.
  assert (HN : N = S (count_char JS.LF (A ++ B))) by apply length_split.
  assert (Hc : count_char JS.LF (A ++ String JS.LF B)
               = S (count_char JS.LF (A ++ B))).
  { rewrite !count_char_append. simpl. lia. }
  rewrite Hc, <- HN. unfold numerals. rewrite seq_S, map_app. cbn [map].
  rewrite join_snoc.
  - rewrite Nat.add_comm. reflexivity.
  - rewrite HN. discriminate.
Qed.

(** From nine lines to ten: the numeral added has two digits. *)
Lemma line_feed_adds_next_numeral_witness :
  CodeEditor.gutter (lines_of_x 9 ++ String JS.LF "y")
  = CodeEditor.gutter (lines_of_x 9) ++ String JS.LF "10" /\
  CodeEditor.gutter (lines_of_x 9 ++ String JS.LF "y")
  = String.concat (String JS.LF EmptyString)
      ["1"; "2"; "3"; "4"; "5"; "6"; "7"; "8"; "9"; "10"].
Proof.
  split; [|vm_compute; reflexivity].
  destruct (line_feed_adds_next_numeral (lines_of_x 9) "y")
    as (d & H1 & H2 & H3).
  rewrite H1. f_equal. f_equal.
  exact (numeral_unique d _ H2 H3).
Defined.

(* ================================================================== *)
(** * What the page never does *)
(* ================================================================== *)

Section Never.

Lemma act_kept (a : Action) (w : World) :
  kept w ->
  harmless a \/ (exists j, a = setAnalysisResults j) ->
  kept (act a w).
Proof.
  intros (Hu & Hf & Ht & Hp) Ha. unfold kept.
  destruct a as [m ty | | | | | | [f|] | |]; cbn;
    try (repeat split; assumption).
  - repeat split; try assumption. apply Forall_snoc; [exact Ht|].
    destruct Ha as [Ha | (j & Hj)]; [exact Ha | discriminate].
  - repeat split; try assumption.
    destruct Ha as [Ha | (j & Hj)]; [exact Ha | discriminate].
Qed.

Lemma act_results (a : Action) (w : World) :
  harmless a -> analysisResults (hooks (act a w)) = analysisResults (hooks w).
Proof. destruct a; cbn; intros H; try reflexivity. contradiction. Qed.

Lemma run_tame (p : Proc unit) :
  tame p ->
  forall w, kept w ->
    kept (run p w) /\
    analysisResults (hooks (run p w)) = analysisResults (hooks w).
Proof.
  induction 1 as [u | a k Ha Hk IH | X op k Hop Hk IH | resp k k' He IHe Hj Hk' IHk'];
    intros w Hw; cbn [run].
  - split; [exact Hw | reflexivity].
  - destruct (IH (act a w)) as (H1 & H2).
    + apply act_kept; [exact Hw | now left].
    + split; [exact H1|]. now rewrite H2, act_results.
  - split; [|reflexivity]. destruct Hw as (Hu & Hf & Ht & Hp).
    repeat split; try assumption. cbn [pending with_pending].
    apply Forall_snoc; [exact Hp|].
    destruct op; try discriminate; exact Hk.
  - split; [|reflexivity]. destruct Hw as (Hu & Hf & Ht & Hp).
    repeat split; try assumption. cbn [pending with_pending].
    apply Forall_snoc; [exact Hp|].
    cbn. split; [exact He|]. exists k'. split; assumption.
Qed.

Lemma kept_commit (w : World) : kept w -> kept (commit w).
Proof. intros H. exact H. Qed.

Ltac tame_step :=
  match goal with
  | |- tame (Ret _) => apply tame_Ret
  | |- tame (perform _) => unfold perform
  | |- tame (bind _ _) => cbn [bind]
  | |- tame (Do _ _) => apply tame_Do; [cbn; auto|]
  | |- tame (Await (ResponseJson _) _) =>
      eapply tame_Json;
      [intros ?; cbn | intros ?; cbn; reflexivity | intros ?; cbn]
  | |- tame (Await _ _) =>
      apply tame_Await; [reflexivity | intros [?|?]; cbn]
  | |- tame ?p =>
      match p with
      | context [if ?c then _ else _] => destruct c eqn:?; cbn
      | context [match ?x with _ => _ end] => destruct x eqn:?; cbn
      end
  end.

Lemma handleFileUpload_tame (files0 : option File) :
  tame (App.handleFileUpload files0).
Proof.
  unfold App.handleFileUpload. destruct files0 as [f|];
    [|repeat tame_step].
  assert (Hv : valid_file f
               = JS.includes App.allowedTypes
                   ("." ++ JS.toLowerCase (after_last_dot (file_name f)))
                 && (file_size f <=? App.MAX_SIZE)%N).
  { unfold valid_file. now rewrite fileExtension_spec. }
  rewrite fileExtension_spec.
  destruct (JS.includes App.allowedTypes _) eqn:Hi; cbn [negb];
    [|repeat tame_step].
  destruct (App.MAX_SIZE <? file_size f)%N eqn:Hs; [repeat tame_step|].
  cbn [bind perform]. apply tame_Do.
  - cbn. rewrite Hv. cbn [andb].
    apply N.leb_le. apply N.ltb_ge in Hs. exact Hs.
  - repeat tame_step.
Qed.

Lemma handleImportFromGithub_tame (U : string) :
  tame (App.handleImportFromGithub U).
Proof.
  unfold App.handleImportFromGithub.
  destruct (negb (JS.truthy_string (JS.trim U))); cbn; repeat tame_step.
Qed.

Lemma handleKeyDown_tame (value key : string) (a b : nat) :
  tame (CodeEditor.handleKeyDown value setContractCode key a b).
Proof.
  unfold CodeEditor.handleKeyDown.
  destruct (key =? "Tab"); cbn; repeat tame_step.
Qed.

Lemma handleAnalyzeContract_tame (sf : option File) (code : string) :
  tame (App.handleAnalyzeContract sf code).
Proof.
  unfold App.handleAnalyzeContract.
  destruct (negb (App.truthy_file sf)
            && negb (JS.truthy_string (JS.trim code)));
    cbn; repeat tame_step.
Qed.

(** What a settled task goes on with. *)
Lemma resume_tame (t : Task) (a : Answer) (p : Proc unit) :
  task_tame t -> resume t a = Some p ->
  tame p \/
  exists j k', a = JsonSettled (inr j) /\
               p = Do (setAnalysisResults j) k' /\ tame k'.
Proof.
  destruct t as [X op k]. cbn [task_tame].
  destruct op; destruct a as [ans|ans|ans|ans]; cbn; intros Hk [= <-];
    try (left; apply Hk).
  destruct Hk as (He & k' & Hj & Hk'). destruct ans as [e|j].
  - left. apply He.
  - right. exists j, (k' j). repeat split; [apply Hj | apply Hk'].
Qed.

Lemma kept_remove (w : World) (i : nat) :
  kept w -> kept (with_pending w (remove_nth i (pending w))).
Proof.
  intros (Hu & Hf & Ht & Hp). repeat split; try assumption.
  cbn [pending with_pending]. now apply Forall_remove_nth.
Qed.

(** Every turn keeps the page as it should be, and moves the stored
    result only when a JSON body arrives. *)
Lemma fire_kept (ev : Event) (w : World) :
  kept w ->
  kept (fire ev w) /\
  (analysisResults (hooks (fire ev w)) = analysisResults (hooks w) \/
   exists i j, ev = Settle i (JsonSettled (inr j)) /\
               analysisResults (hooks (fire ev w)) = j).
Proof.
  intros Hw.
  assert (Hrun : forall p w0, tame p -> kept w0 ->
            kept (commit (run p w0)) /\
            analysisResults (hooks (commit (run p w0)))
            = analysisResults (hooks w0)).
  { intros p w0 Hp H0. destruct (run_tame p Hp w0 H0) as (H1 & H2).
    split; [exact H1 | exact H2]. }
  destruct ev as [| v caret | a b | key | v | files0 | | | i a | i];
    cbn [fire].
  - split; [exact Hw | now left].
  - destruct (focused w); [|split; [exact Hw | now left]].
    cbn [run perform]. split; [|now left].
    apply kept_commit, act_kept; [exact Hw | now left].
  - destruct (focused w); (split; [exact Hw | now left]).
  - destruct (focused w); [|split; [exact Hw | now left]].
    set (h := CodeEditor.handleKeyDown _ _ _ _ _).
    destruct (run_tame h (handleKeyDown_tame _ _ _ _)
                (with_defaultPrevented w false) Hw) as (H1 & H2).
    set (w1 := run h (with_defaultPrevented w false)) in *.
    destruct ((key =? "Tab") && negb (defaultPrevented w1));
      (split; [exact H1 | left; exact H2]).
  - cbn [run perform]. split; [|now left].
    apply kept_commit, act_kept; [exact Hw | now left].
  - destruct (Hrun _ w (handleFileUpload_tame files0) Hw) as (H1 & H2).
    split; [exact H1 | now left].
  - destruct (Hrun _ w (handleImportFromGithub_tame (githubUrl (hooks w))) Hw)
      as (H1 & H2).
    split; [exact H1 | now left].
  - destruct (analyze_disabled w); [split; [exact Hw | now left]|].
    destruct (Hrun _ w (handleAnalyzeContract_tame (selectedFile (hooks w))
                          (contractCode (hooks w))) Hw) as (H1 & H2).
    split; [exact H1 | now left].
  - destruct (nth_error (pending w) i) as [t|] eqn:Hi;
      [|split; [exact Hw | now left]].
    destruct (resume t a) as [p|] eqn:Hr; [|split; [exact Hw | now left]].
    assert (Ht : task_tame t).
    { destruct Hw as (_ & _ & _ & Hp).
      eapply Forall_forall; [exact Hp | eapply nth_error_In; exact Hi]. }
    pose proof (kept_remove w i Hw) as Hw0.
    destruct (resume_tame t a p Ht Hr) as [Hp | (j & k' & -> & -> & Hk')].
    + destruct (Hrun p _ Hp Hw0) as (H1 & H2). split; [exact H1 | now left].
    + cbn [run].
      destruct (run_tame k' Hk'
                  (act (setAnalysisResults j)
                     (with_pending w (remove_nth i (pending w))))) as (H1 & H2).
      * apply act_kept; [exact Hw0 | right; now exists j].
      * split; [exact H1|]. right. exists i, j. split; [reflexivity|].
        exact H2.
  - destruct (nth_error (timers w) i); (split; [exact Hw | now left]).
Qed.

Lemma exec_kept (evs : list Event) (w : World) : kept w -> kept (exec evs w).
Proof.
  revert w. induction evs as [|ev evs IH]; intros w H; [exact H|].
  cbn [exec fold_left]. apply IH, fire_kept, H.
Qed.

Lemma kept_initial : kept initial_world.
Proof. repeat split; constructor. Qed.

End Never.

(** No handler lets an error escape: whatever happens on the page,
    a failed fetch, a bad status, an unreadable body or file, nothing is
    thrown past the end of a handler (the [pop()] of [handleFileUpload]
    in particular never yields [undefined]). *)
Theorem nothing_is_thrown_unhandled :
  forall (evs : list Event), unhandled (exec evs initial_world) = [].
Proof. intros evs. apply (exec_kept evs initial_world kept_initial). Qed.



(** Every toast the page ever shows is an error or a success: the
    default kind of [showToast] is never used. *)
Theorem toasts_are_errors_or_successes :
  forall (evs : list Event),
    Forall (fun t => snd t = "error" \/ snd t = "success")
      (toasts (exec evs initial_world)).
Proof. intros evs. apply (exec_kept evs initial_world kept_initial). Qed.

(** The stored result moves in one way only: when the JSON body of an
    analysis response arrives, to that body.  No click, key, file, import
    or failure clears or changes it, so the last result stays on display
    while a new submission is in flight. *)
Theorem result_moves_only_to_a_json_body :
  forall (evs : list Event) (ev : Event),
    let w := exec evs initial_world in
    analysisResults (hooks (fire ev w)) = analysisResults (hooks w) \/
    exists i j, ev = Settle i (JsonSettled (inr j)) /\
                analysisResults (hooks (fire ev w)) = j.
Proof.
  intros evs ev w.
  apply fire_kept, (exec_kept evs initial_world kept_initial).
Qed.

(* ================================================================== *)
(** * Submission and file reading: how they end *)
(* ================================================================== *)

(** A successful submission: an [ok] response moves the handler on to the
    body, and the body, whatever JSON value it is, replaces the stored
    result as a whole; the success toast is shown and the page is ready
    for the next submission. *)
Theorem successful_submission_publishes_body :
  forall (sf : option File) (code : string) (t : Task),
    submission_task sf code = Some t ->
    forall (w : World) (i : nat) (resp : Response),
      nth_error (pending w) i = Some t ->
      ok resp = true ->
      exists t2,
        pending (fire (Settle i (FetchSettled (inr resp))) w)
        = (remove_nth i (pending w) ++ [t2])%list /\
        forall (w3 : World) (idx : nat) (j : Json),
          nth_error (pending w3) idx = Some t2 ->
          submission_succeeded idx j w3
            (fire (Settle idx (JsonSettled (inr j))) w3).
Proof.
  intros sf code t Ht w i resp Hi Hok.
  unfold submission_task, App.handleAnalyzeContract in Ht.
  destruct (negb (App.truthy_file sf)
            && negb (JS.truthy_string (JS.trim code))); [discriminate|].
  cbn in Ht. injection Ht as <-.
  eexists. unfold fire. rewrite Hi. cbn. rewrite Hok. cbn.
  split; [reflexivity|].
  intros w3 idx j Hj. rewrite Hj. cbn. repeat split.
Qed.

Lemma successful_submission_publishes_body_witness :
  submission_succeeded 0 one_issue
    (fire (Settle 0 (FetchSettled (inr ok_response))) submitting_page)
    (exec [Settle 0 (FetchSettled (inr ok_response));
           Settle 0 (JsonSettled (inr one_issue))] submitting_page).
Proof.
  destruct (successful_submission_publishes_body None "int x;" _ eq_refl
              submitting_page 0 ok_response eq_refl eq_refl)
    as (t2 & Hp & H).
  apply H. rewrite Hp. reflexivity.
Defined.

(** A body that is a falsy JSON value ([null], [false], [0], an empty
    string) is published all the same: the success toast is shown, and
    either panel is back at the placeholder of the page before any
    submission. *)
Theorem falsy_body_shows_the_placeholder :
  forall (sf : option File) (code : string) (t : Task),
    submission_task sf code = Some t ->
    forall (w : World) (i : nat) (resp : Response),
      nth_error (pending w) i = Some t ->
      ok resp = true ->
      exists t2,
        pending (fire (Settle i (FetchSettled (inr resp))) w)
        = (remove_nth i (pending w) ++ [t2])%list /\
        forall (w3 : World) (idx : nat) (j : Json),
          nth_error (pending w3) idx = Some t2 ->
          Results.truthy j = false ->
          let w4 := fire (Settle idx (JsonSettled (inr j))) w3 in
          toasts w4
          = (toasts w3 ++
             [("Contract analysis completed successfully!", "success")])%list
          /\ Results.panel_json (analysisResults (hooks w4))
             = Results.Placeholder
          /\ forall cp, Results.panel_issues cp (analysisResults (hooks w4))
                        = Results.Placeholder.
Proof.
  intros sf code t Ht w i resp Hi Hok.
  unfold submission_task, App.handleAnalyzeContract in Ht.
  destruct (negb (App.truthy_file sf)
            && negb (JS.truthy_string (JS.trim code))); [discriminate|].
  cbn in Ht. injection Ht as <-.
  eexists. unfold fire. rewrite Hi. cbn. rewrite Hok. cbn.
  split; [reflexivity|].
  intros w3 idx j Hj Hfalsy. rewrite Hj.
  cbn -[Results.panel_json Results.panel_issues].
  unfold Results.panel_json, Results.panel_issues. rewrite Hfalsy.
  repeat split.
Qed.

Lemma falsy_body_shows_the_placeholder_witness :
  Results.panel_json
    (analysisResults
       (hooks (exec [Settle 0 (FetchSettled (inr ok_response));
                     Settle 0 (JsonSettled (inr JNull))] submitting_page)))
  = Results.Placeholder.
Proof.
  destruct (falsy_body_shows_the_placeholder None "int x;" _ eq_refl
              submitting_page 0 ok_response eq_refl eq_refl)
    as (t2 & Hp & H).
  refine (proj1 (proj2 (H _ 0 JNull _ eq_refl))).
  rewrite Hp. reflexivity.
Defined.

(** The reading of a chosen file, whenever it ends and whatever happened
    on the page meanwhile.  When it ends well the text of the file
    replaces the contract text, a success toast names the file, and no
    other hook moves: the selected file is what it was by then, so a read
    that ends after an import has cleared the selection overwrites the
    imported text and leaves no file selected.  The textarea, when it
    was in step, then shows the text with each CR LF pair and each lone
    CR as a line feed, and is in step again.  When the read fails an
    error is shown and no hook moves: the file chosen stays selected with
    its text never shown. *)
Theorem file_read_outcomes :
  forall (f : File) (t : Task),
    read_task f = Some t ->
    forall (w : World) (i : nat),
      nth_error (pending w) i = Some t ->
      (forall content,
          let w' := fire (Settle i (ReadSettled (inr content))) w in
          hooks w' = set_contractCode (hooks w) content /\
          toasts w' = (toasts w ++ [selected_toast f])%list /\
          pending w' = remove_nth i (pending w) /\
          (textarea_in_step w ->
           ta_value (textarea w') = normalize_newlines content /\
           textarea_in_step w')) /\
      (forall e,
          let w' := fire (Settle i (ReadSettled (inl e))) w in
          hooks w' = hooks w /\
          toasts w'
          = (toasts w ++
             [("Failed to read file. Please try again.", "error")])%list /\
          pending w' = remove_nth i (pending w)).
Proof.
  intros f t Ht w i Hi.
  unfold read_task, App.handleFileUpload in Ht.
  rewrite fileExtension_spec in Ht.
  destruct (negb (JS.includes App.allowedTypes _)); [discriminate|].
  destruct (App.MAX_SIZE <? file_size f)%N; [discriminate|].
  cbn in Ht. injection Ht as <-.
  split.
  - intros content. cbv zeta. unfold fire. rewrite Hi. cbn [resume].
    split; [reflexivity|]. split; [reflexivity|]. split; [reflexivity|].
    intros HI. pose proof (in_step_normalized w HI) as Hn.
    destruct HI as (_ & H1 & H2). split.
    + rewrite commit_value; [reflexivity | exact Hn].
    + apply commit_run_in_step; assumption.
  - intros e. cbv zeta. unfold fire. rewrite Hi. cbn. repeat split.
Qed.

Lemma file_read_outcomes_witness :
  selectedFile (hooks imported_before_read) = None /\
  contractCode (hooks imported_before_read) = "imported" /\
  hooks (fire (Settle 0 (ReadSettled (inr crlf_text))) imported_before_read)
  = set_contractCode (hooks imported_before_read) crlf_text /\
  ta_value
    (textarea (fire (Settle 0 (ReadSettled (inr crlf_text)))
                 imported_before_read))
  = "a" ++ String JS.LF "b".
Proof.
  split; [reflexivity|]. split; [reflexivity|].
  destruct (file_read_outcomes sample_file _ eq_refl
              imported_before_read 0 eq_refl) as (H & _).
  destruct (H crlf_text) as (H1 & _ & _ & H2).
  split; [exact H1|].
  refine (proj1 (H2 _)).
  unfold textarea_in_step. vm_compute. repeat split; lia.
Defined.

(* ================================================================== *)
(** * More on the raw URL *)
(* ================================================================== *)

Section RawUrl.

Lemma replace_unfold (pat rep s : string) :
  JS.replace pat rep s
  = if String.prefix pat s then rep ++ JS.drop (String.length pat) s
    else match s with
         | EmptyString => EmptyString
         | String c s' => String c (JS.replace pat rep s')
         end.
Proof. destruct s; reflexivity. Qed.

Lemma occurs_unfold (pat s : string) :
  occurs pat s
  = String.prefix pat s
    || match s with
       | EmptyString => false
       | String _ s' => occurs pat s'
       end.
Proof. destruct s; reflexivity. Qed.

Lemma replace_absent (pat rep s : string) :
  occurs pat s = false -> JS.replace pat rep s = s.
Proof.
  induction s as [|c s IH]; rewrite occurs_unfold, replace_unfold;
    intros H; apply orb_false_iff in H; destruct H as (Hp & Ho);
    rewrite Hp; [reflexivity|].
  now rewrite IH.
Qed.

Lemma prefix_app_long (pat a b : string) :
  String.length pat <= String.length a ->
  String.prefix pat (a ++ b) = String.prefix pat a.
Proof.
  revert a. induction pat as [|x pat IH]; intros a H.
  - now destruct a, b.
  - destruct a as [|y a]; [simpl in H; lia|].
    simpl. destruct (ascii_dec x y); [|reflexivity].
    apply IH. simpl in H. lia.
Qed.

Lemma prefix_self_app (pat post : string) :
  String.prefix pat (pat ++ post) = true.
Proof.
  induction pat as [|x pat IH]; simpl; [now destruct post|].
  destruct (ascii_dec x x); [exact IH | congruence].
Qed.

Lemma replace_here (pat rep post : string) :
  JS.replace pat rep (pat ++ post) = rep ++ post.
Proof. now rewrite replace_unfold, prefix_self_app, drop_append. Qed.

(** The occurrence that gets replaced is the first: where the pattern,
    [q] and a last character [c], stands behind a text [pre] and occurs
    nowhere in [pre] followed by [q]. *)
Lemma replace_first_occurrence (q : string) (c : ascii)
    (rep pre post : string) :
  occurs (q ++ String c EmptyString) (pre ++ q) = false ->
  JS.replace (q ++ String c EmptyString) rep
    (pre ++ (q ++ String c EmptyString) ++ post)
  = pre ++ rep ++ post.
Proof.
  set (pat := q ++ String c EmptyString).
  induction pre as [|x pre IH]; intros H.
  - exact (replace_here pat rep post).
  - rewrite occurs_unfold in H. apply orb_false_iff in H.
    destruct H as (Hp & Ho).
    change (String x pre ++ pat ++ post)
      with (String x (pre ++ pat ++ post)).
    rewrite replace_unfold.
    assert (Hpre : String.prefix pat (String x (pre ++ pat ++ post)) = false).
    { unfold pat at 2. rewrite append_assoc.
      change (String x (pre ++ q ++ String c EmptyString ++ post))
        with (String x pre ++ q ++ String c EmptyString ++ post).
      rewrite <- (append_assoc (String x pre) q).
      rewrite prefix_app_long; [exact Hp|].
      unfold pat. rewrite !length_append. simpl. lia. }
    rewrite Hpre. change (String x pre ++ rep ++ post)
      with (String x (pre ++ rep ++ post)).
    f_equal. apply IH. exact Ho.
Qed.

End RawUrl.

(** The URL of a file as the site shows it,
    [https://github.com/] path [/blob/] rest, is fetched from the raw
    host with the [/blob/] marker taken out, provided that marker does
    not occur earlier, in the path between the host and it. *)
Theorem rawUrl_of_blob_page :
  forall (p rest : string),
    occurs "/blob/" ("/" ++ p ++ "/blob") = false ->
    App.rawUrl ("https://github.com/" ++ p ++ "/blob/" ++ rest)
    = "https://raw.githubusercontent.com/" ++ p ++ "/" ++ rest.
Proof.
  intros p rest H. unfold App.rawUrl.
  replace (JS.replace "github.com" "raw.githubusercontent.com"
             ("https://github.com/" ++ p ++ "/blob/" ++ rest))
    with ("https://raw.githubusercontent.com/" ++ p ++ "/blob/" ++ rest)
    by reflexivity.
  assert (Hocc : occurs ("/blob" ++ String "/" EmptyString)
                   (("https://raw.githubusercontent.com/" ++ p) ++ "/blob")
                 = false).
  { transitivity (occurs "/blob/" ("/" ++ p ++ "/blob")); [|exact H].
    reflexivity. }
  exact (replace_first_occurrence "/blob" "/" "/"
           ("https://raw.githubusercontent.com/" ++ p) rest Hocc).
Qed.

Lemma rawUrl_of_blob_page_witness :
  App.rawUrl ("https://github.com/" ++ "qubic/core" ++ "/blob/" ++ "main/a.h")
  = "https://raw.githubusercontent.com/" ++ "qubic/core" ++ "/" ++ "main/a.h".
Proof. exact (rawUrl_of_blob_page "qubic/core" "main/a.h" eq_refl). Defined.

(** When the marker does occur earlier, as for an owner named [blob], it
    is the earlier one that goes. *)
Example rawUrl_of_owner_named_blob :
  App.rawUrl "https://github.com/blob/tool/blob/main/a.h"
  = "https://raw.githubusercontent.com/tool/blob/main/a.h".
Proof. vm_compute. reflexivity. Qed.

(** A URL that holds neither [github.com] nor [/blob/], a raw URL for
    one, is fetched as it is: nothing is checked about its host. *)
Theorem rawUrl_without_patterns :
  forall (U : string),
    occurs "github.com" U = false ->
    occurs "/blob/" U = false ->
    App.rawUrl U = U.
Proof.
  intros U H1 H2. unfold App.rawUrl.
  now rewrite (replace_absent _ _ U H1), (replace_absent _ _ U H2).
Qed.

Lemma rawUrl_without_patterns_witness :
  App.rawUrl "https://example.org/contract.cpp"
  = "https://example.org/contract.cpp".
Proof.
  exact (rawUrl_without_patterns "https://example.org/contract.cpp"
           eq_refl eq_refl).
Defined.

(* ================================================================== *)
(** * More on file names *)
(* ================================================================== *)

Section LetterCase.

Lemma lower_char_idempotent (c : ascii) :
  JS.lower_char (JS.lower_char c) = JS.lower_char c.
Proof. destruct c as [[] [] [] [] [] [] [] []]; reflexivity. Qed.

Lemma lower_char_dot (c : ascii) :
  Ascii.eqb (JS.lower_char c) "." = Ascii.eqb c ".".
Proof. destruct c as [[] [] [] [] [] [] [] []]; reflexivity. Qed.

Lemma toLowerCase_idempotent (s : string) :
  JS.toLowerCase (JS.toLowerCase s) = JS.toLowerCase s.
Proof.
  induction s as [|c s IH]; simpl; [reflexivity|].
  now rewrite lower_char_idempotent, IH.
Qed.

Lemma split_toLowerCase (s : string) :
  JS.split "." (JS.toLowerCase s) = map JS.toLowerCase (JS.split "." s).
Proof.
  induction s as [|c s IH]; [reflexivity|].
  cbn [JS.toLowerCase JS.split]. rewrite lower_char_dot, IH.
  destruct (Ascii.eqb c "."); [reflexivity|].
  destruct (JS.split "." s); reflexivity.
Qed.

Lemma pop_map {A B} (g : A -> B) (l : list A) :
  JS.pop (map g l) = option_map g (JS.pop l).
Proof.
  induction l as [|x l IH]; [reflexivity|].
  destruct l as [|y l]; [reflexivity|].
  change (JS.pop (map g (x :: y :: l))) with (JS.pop (map g (y :: l))).
  exact IH.
Qed.

End LetterCase.

(** The extension check does not see letter case: two names of code
    units below 256 that differ in letter case only (their lower-cased
    forms are equal) have the same extension in its eyes.  Names with
    other code units, where lower-casing can depend on the neighbours of
    a letter, are outside the strings of this development. *)
Theorem extension_ignores_letter_case :
  forall (n1 n2 : string),
    JS.toLowerCase n1 = JS.toLowerCase n2 ->
    App.fileExtension n1 = App.fileExtension n2.
Proof.
  assert (H : forall n, App.fileExtension (JS.toLowerCase n)
                        = App.fileExtension n).
  { intros n. unfold App.fileExtension.
    rewrite split_toLowerCase, pop_map, pop_split_dot. cbn [option_map].
    now rewrite toLowerCase_idempotent. }
  intros n1 n2 E. now rewrite <- (H n1), <- (H n2), E.
Qed.

Lemma extension_ignores_letter_case_witness :
  App.fileExtension "Token.CPP" = App.fileExtension "TOKEN.cpp".
Proof. exact (extension_ignores_letter_case "Token.CPP" "TOKEN.cpp" eq_refl). Defined.

(** Of the nine extensions the file input offers, and the rejection
    message lists as valid, only [.cpp] and [.h] pass: a file with any of
    the other seven is turned down by that very message. *)
Theorem offered_extensions_are_turned_down :
  forall (f : File) (pre ext : string) (w : World),
    In ext (JS.split "," picker_accept) ->
    ext <> ".cpp" -> ext <> ".h" ->
    file_name f = pre ++ ext ->
    run (App.handleFileUpload (Some f)) w
    = with_toasts w
        (toasts w ++
         [("Please select a valid contract file (.cpp, .h, .sol, .js, .ts, .py, .rs, .go, .txt)",
           "error")])%list.
Proof.
  intros f pre ext w Hin Hc Hh Hn.
  unfold App.handleFileUpload. rewrite fileExtension_spec, Hn.
  cbn in Hin.
  destruct Hin as [<-|[<-|[<-|[<-|[<-|[<-|[<-|[<-|[<-|[]]]]]]]]]];
    try congruence;
    match goal with
    | |- context [after_last_dot (pre ++ String "." ?e)] =>
        rewrite (after_last_dot_ext pre e eq_refl)
    end; reflexivity.
Qed.

Lemma offered_extensions_are_turned_down_witness :
  run (App.handleFileUpload (Some (file_of "Token.sol" 100))) initial_world
  = with_toasts initial_world
      [("Please select a valid contract file (.cpp, .h, .sol, .js, .ts, .py, .rs, .go, .txt)",
        "error")].
Proof.
  apply (offered_extensions_are_turned_down (file_of "Token.sol" 100)
           "Token" ".sol" initial_world).
  - cbn. left. reflexivity.
  - discriminate.
  - discriminate.
  - reflexivity.
Defined.

(* ================================================================== *)
(** * Import and submission together *)
(* ================================================================== *)

(** The import button is never disabled and the handler has no guard of
    its own: every click with a non-blank URL sends its GET at once,
    whatever is in flight, so two clicks leave two fetches of the same URL
    outstanding, and neither click moves a hook. *)
Theorem imports_are_not_serialised :
  forall (w : World),
    blank (githubUrl (hooks w)) = false ->
    let w' := fire ClickImport (fire ClickImport w) in
    pending_requests (pending w')
    = (pending_requests (pending w) ++
       [GET (App.rawUrl (githubUrl (hooks w)));
        GET (App.rawUrl (githubUrl (hooks w)))])%list /\
    hooks w' = hooks w /\ toasts w' = toasts w.
Proof.
  intros w Hb w'.
  assert (H : forall w0, githubUrl (hooks w0) = githubUrl (hooks w) ->
            exists k,
              fire ClickImport w0
              = commit (with_pending w0
                          (pending w0 ++
                           [Suspended
                              (Fetch (GET (App.rawUrl (githubUrl (hooks w)))))
                              k])%list)).
  { intros w0 E. cbn [fire]. rewrite E.
    unfold App.handleImportFromGithub. rewrite trim_falsy_iff_blank, Hb.
    cbn. eexists. reflexivity. }
  destruct (H w eq_refl) as (k1 & H1).
  destruct (H (fire ClickImport w)) as (k2 & H2).
  { rewrite H1. reflexivity. }
  unfold w'. rewrite H2, H1. cbn [pending hooks toasts commit with_pending
    with_textarea with_analyze_disabled].
  rewrite !pending_requests_app. cbn [pending_requests request_of].
  rewrite <- app_assoc. repeat split.
Qed.

Lemma imports_are_not_serialised_witness :
  pending_requests (pending (fire ClickImport (fire ClickImport page_with_url)))
  = [GET "https://raw.githubusercontent.com/qubic/core/main/a.h";
     GET "https://raw.githubusercontent.com/qubic/core/main/a.h"].
Proof.
  exact (proj1 (imports_are_not_serialised page_with_url eq_refl)).
Defined.

(** After an import that ended well the imported text is what Analyze
    sends: with the file selection cleared by the import, a click on the
    enabled button posts the text, when it is not blank, as the
    [text/plain] blob [contract.cpp], even if a file had been selected
    before the import. *)
Theorem imported_text_is_what_is_submitted :
  forall (i : nat) (code : string) (w w' : World),
    import_succeeded i code w w' ->
    analyze_disabled w' = false ->
    blank code = false ->
    pending_requests (pending (fire ClickAnalyze w'))
    = (pending_requests (pending w') ++
       [{| url := App.ANALYZE_URL; method := "POST";
           body := Some [("file",
                          FormBlob {| blob_parts := [code];
                                      blob_type := "text/plain" |}
                            "contract.cpp")] |}])%list.
Proof.
  intros i code w w' (Hc & Hf & _) Hd Hb.
  cbn [fire]. rewrite Hd, Hc, Hf.
  destruct (handleAnalyzeContract_valid None code w') as (k & Hk).
  { unfold passes_validation. now rewrite Hb. }
  rewrite Hk. cbn [pending commit with_pending with_hooks with_textarea
    with_analyze_disabled].
  rewrite pending_requests_app. reflexivity.
Qed.

Lemma imported_text_is_what_is_submitted_witness :
  pending_requests
    (pending (exec [Settle 0 (FetchSettled (inr ok_response));
                    Settle 0 (TextSettled (inr "imported text"));
                    ClickAnalyze] importing_page))
  = [{| url := App.ANALYZE_URL; method := "POST";
        body := Some [("file",
                       FormBlob {| blob_parts := ["imported text"];
                                   blob_type := "text/plain" |}
                         "contract.cpp")] |}].
Proof.
  refine (imported_text_is_what_is_submitted 0 "imported text"
            (fire (Settle 0 (FetchSettled (inr ok_response))) importing_page)
            (exec [Settle 0 (FetchSettled (inr ok_response));
                   Settle 0 (TextSettled (inr "imported text"))]
               importing_page)
            _ eq_refl eq_refl).
  repeat split.
Defined.
